(** * Shallow embedding of internal/issuer/signer/signer.go

    The package builds an HVCA (GlobalSign Atlas) signer from an issuer
    spec and a secret map, and signs CSRs by projecting them onto the
    CA's validation policy, submitting the request, and re-encoding the
    issued certificate and the CA chain to PEM. *)

From Stdlib Require Import String List ZArith Lia.
From Stdlib Require Import Init.Byte Strings.Byte.
From stdpp Require Import base gmap strings.
Import ListNotations.
Open Scope Z_scope.

Definition bytes := list byte.

(** ** encoding/pem and encoding/base64 (standard library of Go)

    A model of [pem.EncodeToMemory] for blocks without headers, and of the
    loop of [pem.Decode]: BEGIN lines, [\r\n] line ends and trailing blanks,
    header lines, the END line, and the retry after a malformed block. *)
Module Pem.

Definition b64_alphabet : bytes :=
  list_byte_of_string
    "ABCDEFGHIJKLMNOPQRSTUVWXYZabcdefghijklmnopqrstuvwxyz0123456789+/".

Definition pad : byte := "="%byte.
Definition nl : byte := "010"%byte.

Definition bz (b : byte) : Z := Z.of_N (Byte.to_N b).
Definition zb (z : Z) : byte :=
  match Byte.of_N (Z.to_N z) with Some b => b | None => x00 end.

(** [enc.encode[v]] *)
Definition enc_char (d : Z) : byte := nth (Z.to_nat d) b64_alphabet x00.

Fixpoint index_of (c : byte) (l : bytes) (i : Z) : option Z :=
  match l with
  | [] => None
  | x :: l' => if Byte.eqb x c then Some i else index_of c l' (i + 1)
  end.

(** [enc.decodeMap[c]], with 0xFF (invalid) as [None] *)
Definition dec_char (c : byte) : option Z := index_of c b64_alphabet 0.

(** [base64.StdEncoding.Encode]: groups of three bytes become four
    characters ([val>>18&0x3F], ...), a final partial group is padded. *)
Fixpoint b64_encode (src : bytes) : bytes :=
  match src with
  | b1 :: b2 :: b3 :: rest =>
      let v := bz b1 * 65536 + bz b2 * 256 + bz b3 in
      enc_char (v / 262144 mod 64) :: enc_char (v / 4096 mod 64)
        :: enc_char (v / 64 mod 64) :: enc_char (v mod 64) :: b64_encode rest
  | [b1; b2] =>
      let v := bz b1 * 65536 + bz b2 * 256 in
      [enc_char (v / 262144 mod 64); enc_char (v / 4096 mod 64);
       enc_char (v / 64 mod 64); pad]
  | [b1] =>
      let v := bz b1 * 65536 in
      [enc_char (v / 262144 mod 64); enc_char (v / 4096 mod 64); pad; pad]
  | [] => []
  end.

(** The quantum loop of [base64.StdEncoding.Decode] on input with [\r]
    and [\n] removed: quantums of four characters, padding only in the
    last one, nothing after the padding, and the bits left over by a
    padded quantum ignored (the encoding is not [Strict]). *)
Fixpoint b64_decode (src : bytes) : option bytes :=
  match src with
  | [] => Some []
  | c1 :: c2 :: c3 :: c4 :: rest =>
      match dec_char c1, dec_char c2 with
      | Some d1, Some d2 =>
          if Byte.eqb c3 pad then
            if Byte.eqb c4 pad then
              match rest with
              | [] => Some [zb ((d1 * 262144 + d2 * 4096) / 65536 mod 256)]
              | _ => None
              end
            else None
          else
            match dec_char c3 with
            | None => None
            | Some d3 =>
                if Byte.eqb c4 pad then
                  match rest with
                  | [] =>
                      let v := d1 * 262144 + d2 * 4096 + d3 * 64 in
                      Some [zb (v / 65536 mod 256); zb (v / 256 mod 256)]
                  | _ => None
                  end
                else
                  match dec_char c4 with
                  | None => None
                  | Some d4 =>
                      let v := d1 * 262144 + d2 * 4096 + d3 * 64 + d4 in
                      match b64_decode rest with
                      | None => None
                      | Some out =>
                          Some (zb (v / 65536 mod 256) :: zb (v / 256 mod 256)
                                  :: zb (v mod 256) :: out)
                      end
                  end
            end
      | _, _ => None
      end
  | _ => None
  end.

(** [lineBreaker]: a newline after every 64 characters, and one more on
    [Close] when the last line is partial. [used] is the length of the
    current line. *)
Fixpoint line_break (used : nat) (s : bytes) : bytes :=
  match s with
  | [] => match used with O => [] | _ => [nl] end
  | c :: s' =>
      if Nat.eqb used 63 then c :: nl :: line_break 0 s'
      else c :: line_break (S used) s'
  end.

(** [pem.Block] with the fields this package reads: the headers a
    [pem.Decode] parses are not kept, only whether there were any. *)
Record Block := { blk_Type : string; blk_Bytes : bytes }.

Definition pemStart : bytes := nl :: list_byte_of_string "-----BEGIN ".
Definition pemEnd : bytes := nl :: list_byte_of_string "-----END ".
Definition pemEndOfLine : bytes := list_byte_of_string "-----".
Definition colon : bytes := list_byte_of_string ":".

(** [pem.EncodeToMemory] for a block without headers: [pemStart[1:]],
    the type, the base64 body through a [lineBreaker], [pemEnd[1:]]. *)
Definition EncodeToMemory (b : Block) : bytes :=
  drop 1 pemStart ++ list_byte_of_string (blk_Type b) ++ pemEndOfLine ++ [nl]
  ++ line_break 0 (b64_encode (blk_Bytes b))
  ++ drop 1 pemEnd ++ list_byte_of_string (blk_Type b) ++ pemEndOfLine ++ [nl].

(** [bytes.HasPrefix(l, p)] *)
Fixpoint has_prefix (p l : bytes) : bool :=
  match p, l with
  | [], _ => true
  | x :: p', y :: l' => Byte.eqb x y && has_prefix p' l'
  | _ :: _, [] => false
  end.

(** [bytes.HasSuffix(l, s)] *)
Definition has_suffix (s l : bytes) : bool := has_prefix (rev s) (rev l).

(** [bytes.Cut(l, pat)], the part after the first occurrence. *)
Fixpoint cut_after (pat l : bytes) : option bytes :=
  if has_prefix pat l then Some (drop (length pat) l)
  else match l with [] => None | _ :: l' => cut_after pat l' end.

(** [bytes.Cut(l, pat)]: the text before the first occurrence of [pat]
    ([acc] reversed), and the text after it. *)
Fixpoint cut (pat : bytes) (acc l : bytes) : option (bytes * bytes) :=
  if has_prefix pat l then Some (rev acc, drop (length pat) l)
  else match l with [] => None | c :: l' => cut pat (c :: acc) l' end.

(** [bytes.Index(l, pat)], with -1 as [None]. *)
Fixpoint index (pat l : bytes) : option nat :=
  if has_prefix pat l then Some O
  else match l with
       | [] => None
       | _ :: l' => match index pat l' with Some i => Some (S i) | None => None end
       end.

(** [bytes.IndexByte(l, '\n')]: the bytes before the first newline, and
    the bytes after it if there is one. *)
Fixpoint split_nl (l : bytes) : bytes * option bytes :=
  match l with
  | [] => ([], None)
  | c :: l' =>
      if Byte.eqb c nl then ([], Some l')
      else let (a, r) := split_nl l' in (c :: a, r)
  end.

Definition cr : byte := "013"%byte.

Definition is_space_tab (c : byte) : bool :=
  Byte.eqb c " "%byte || Byte.eqb c "009"%byte.

Fixpoint drop_space_tab (l : bytes) : bytes :=
  match l with
  | c :: l' => if is_space_tab c then drop_space_tab l' else l
  | [] => []
  end.

(** [bytes.TrimRight(l, " \t")] *)
Definition trim_right (l : bytes) : bytes := rev (drop_space_tab (rev l)).

(** [getLine]: the first line, without a [\r] just before its newline and
    without trailing spaces and tabs, and the bytes after the newline (none
    when there is no newline). *)
Definition getLine (data : bytes) : bytes * bytes :=
  match split_nl data with
  | (line, None) => (trim_right line, [])
  | (line, Some rest) =>
      let line :=
        match rev line with
        | c :: r => if Byte.eqb c cr then rev r else line
        | [] => line
        end in
      (trim_right line, rest)
  end.

(** [removeSpacesAndTabs] *)
Definition removeSpacesAndTabs (l : bytes) : bytes :=
  List.filter (fun c => negb (is_space_tab c)) l.

Definition is_crlf (c : byte) : bool := Byte.eqb c nl || Byte.eqb c cr.

(** [base64.StdEncoding.Decode]: [\r] and [\n] are skipped, the rest is
    decoded by [b64_decode]; [None] is a [CorruptInputError]. *)
Definition StdEncoding_Decode (src : bytes) : option bytes :=
  b64_decode (List.filter (fun c => negb (is_crlf c)) src).

(** The header loop of [pem.Decode], from [rest] just after the BEGIN
    line: [None] when the input ends inside it ([return nil, data]);
    otherwise the rest after the header lines, and whether a header was
    read ([len(p.Headers) > 0]). A line with a colon is a header. Each
    round consumes a line, so [S (length rest)] rounds suffice
    ([PemFacts.headers_fuel]). *)
Fixpoint headers (fuel : nat) (rest : bytes) (seen : bool) : option (bytes * bool) :=
  match fuel with
  | O => None
  | S fuel' =>
      match rest with
      | [] => None
      | _ :: _ =>
          let (line, next) := getLine rest in
          match cut colon [] line with
          | None => Some (rest, seen)
          | Some _ => headers fuel' next true
          end
      end
  end.

(** What one round of the loop of [pem.Decode] ends in: a [return], or
    [continue] with the input left. *)
Inductive round := Done (r : option (Block * bytes)) | Continue (rest : bytes).

(** One round of the loop of [pem.Decode], on the input left [rest].
    [Done None] is [return nil, data]. *)
Definition decode_round (rest : bytes) : round :=
  let begun :=
    if has_prefix (drop 1 pemStart) rest then Some (drop (length pemStart - 1) rest)
    else cut_after pemStart rest in
  match begun with
  | None => Done None
  | Some rest =>
      let (typeLine, rest) := getLine rest in
      if negb (has_suffix pemEndOfLine typeLine) then Continue rest else
      let typeLine := take (length typeLine - length pemEndOfLine) typeLine in
      match headers (S (length rest)) rest false with
      | None => Done None
      | Some (rest, seen) =>
          let ends :=
            if negb seen && has_prefix (drop 1 pemEnd) rest
            then Some (O, (length pemEnd - 1)%nat)
            else match index pemEnd rest with
                 | Some i => Some (i, (i + length pemEnd)%nat)
                 | None => None
                 end in
          match ends with
          | None => Continue rest
          | Some (endIndex, endTrailerIndex) =>
              let endTrailer := drop endTrailerIndex rest in
              let endTrailerLen := (length typeLine + length pemEndOfLine)%nat in
              if Nat.ltb (length endTrailer) endTrailerLen then Continue rest else
              let restOfEndLine := drop endTrailerLen endTrailer in
              let endTrailer := take endTrailerLen endTrailer in
              if negb (has_prefix typeLine endTrailer
                       && has_suffix pemEndOfLine endTrailer)
              then Continue rest else
              match fst (getLine restOfEndLine) with
              | _ :: _ => Continue rest
              | [] =>
                  match StdEncoding_Decode (removeSpacesAndTabs (take endIndex rest)) with
                  | None => Continue rest
                  | Some bs =>
                      Done (Some ({| blk_Type := string_of_list_byte typeLine;
                                     blk_Bytes := bs |},
                                  snd (getLine (drop (endIndex + length pemEnd - 1) rest))))
                  end
              end
          end
      end
  end.

(** The loop of [pem.Decode]. Each [continue] leaves less input, so
    [S (length data)] rounds suffice ([PemFacts.decode_loop_fuel]). *)
Fixpoint decode_loop (fuel : nat) (rest : bytes) : option (Block * bytes) :=
  match fuel with
  | O => None
  | S fuel' =>
      match decode_round rest with
      | Done r => r
      | Continue rest' => decode_loop fuel' rest'
      end
  end.

(** [pem.Decode]: [None] is the nil block (with [data] as the rest). *)
Definition Decode (data : bytes) : option (Block * bytes) :=
  decode_loop (S (length data)) data.

(** Successive [pem.Decode] calls over a buffer of concatenated blocks. *)
Fixpoint DecodeAll (fuel : nat) (data : bytes) : list Block :=
  match fuel with
  | O => []
  | S fuel' =>
      match Decode data with
      | None => []
      | Some (b, rest) => b :: DecodeAll fuel' rest
      end
  end.

End Pem.

(** ** Values of crypto/x509, hvclient and the issuer API *)

(** Go [error] values: [errors.New] at a call site of this package, or a
    value produced by a library call. *)
Inductive error :=
| errors_New (msg : string)
| lib_error (e : string).

(** The [(T, error)] pair returned by a library call. *)
Inductive result (A : Type) :=
| Ok (a : A)
| Err (e : error).
Arguments Ok {A} a.
Arguments Err {A} e.

Definition is_ok {A} (r : result A) : bool :=
  match r with Ok _ => true | Err _ => false end.

(** What a library function returns: a value or its own error value,
    never one of the [errors.New] values of this package. *)
Inductive lib_result (A : Type) :=
| LOk (a : A)
| LErr (msg : string).
Arguments LOk {A} a.
Arguments LErr {A} msg.

Definition from_lib {A} (r : lib_result A) : result A :=
  match r with LOk a => Ok a | LErr m => Err (lib_error m) end.

(** The outcome of a Go call: it returns a value, or it panics. *)
Inductive go_outcome (A : Type) :=
| Returned (a : A)
| Panicked (msg : string).
Arguments Returned {A} a.
Arguments Panicked {A} msg.

Definition nil_deref : string :=
  "runtime error: invalid memory address or nil pointer dereference".

(** [x509.Certificate], with the field the package reads. *)
Record Certificate := { Raw : bytes }.

(** The key returned by [x509.ParsePKCS1PrivateKey] or
    [x509.ParsePKCS8PrivateKey]; [key_parser] records which one. *)
Inductive KeyParser := PKCS1 | PKCS8.
Record PrivateKey := { key_parser : KeyParser; key_der : bytes }.

(** [x509.PublicKeyAlgorithm] and its [String] method. *)
Inductive PublicKeyAlgorithm :=
| UnknownPublicKeyAlgorithm | x509_RSA | x509_DSA | x509_ECDSA | x509_Ed25519.

Definition PublicKeyAlgorithm_String (a : PublicKeyAlgorithm) : string :=
  match a with
  | UnknownPublicKeyAlgorithm => "0"
  | x509_RSA => "RSA"
  | x509_DSA => "DSA"
  | x509_ECDSA => "ECDSA"
  | x509_Ed25519 => "Ed25519"
  end.

(** [pkix.Name], with the fields the package reads. *)
Record Name := { CommonName : string; SerialNumber : string }.

(** [x509.CertificateRequest], with the fields the package reads. *)
Record CertificateRequest := {
  csr_Subject : Name;
  csr_DNSNames : list string;
  csr_IPAddresses : list bytes;
  csr_PublicKeyAlgorithm : PublicKeyAlgorithm
}.

(** hvclient's [Presence] values: [Optional = 1], [Required = 2],
    [Forbidden = 3]; the field is a Go [int] and may hold any value. *)
Definition Optional : Z := 1.
Definition Required : Z := 2.
Definition Forbidden : Z := 3.

(** hvclient's [KeyType] and its [String] method. *)
Inductive KeyType := hv_RSA | hv_ECDSA | hv_KeyType_other (n : Z).

Definition KeyType_String (k : KeyType) : string :=
  match k with
  | hv_RSA => "RSA"
  | hv_ECDSA => "ECDSA"
  | hv_KeyType_other _ => "UNKNOWN KEY TYPE"
  end.

(** hvclient's [KeyFormat]. *)
Inductive KeyFormat := hv_PKCS8 | PKCS10 | hv_KeyFormat_other (n : Z).

Definition KeyFormat_eqb (a b : KeyFormat) : bool :=
  match a, b with
  | hv_PKCS8, hv_PKCS8 | PKCS10, PKCS10 => true
  | hv_KeyFormat_other n, hv_KeyFormat_other m => Z.eqb n m
  | _, _ => false
  end.

(** hvclient's [ListPolicy] for SAN fields. *)
Record ListPolicy := { Static : bool; MinCount : Z; MaxCount : Z }.

(** hvclient's validation [Policy], with the fields [Sign] reads. *)
Record Policy := {
  SubjectDN_CommonName_Presence : Z;
  SubjectDN_SerialNumber_Presence : Z;
  SAN_DNSNames : ListPolicy;
  SAN_IPAddresses : ListPolicy;
  PublicKey_KeyType : KeyType;
  PublicKey_KeyFormat : KeyFormat;
  HashAlgorithm_Presence : Z;
  HashAlgorithm_List : list string
}.

(** hvclient's [Request] and its parts. *)
Record DN := { dn_CommonName : string; dn_SerialNumber : string }.
Record SAN := { san_DNSNames : list string; san_IPAddresses : list bytes }.
Record Validity := { NotBefore : Z; NotAfter : Z }.
Record Signature := { HashAlgorithm : string }.

Record Request := {
  req_CSR : CertificateRequest;
  req_Subject : DN;
  req_SAN : SAN;
  req_Validity : Validity;
  req_Signature : Signature
}.

Record CertInfo := { X509 : Certificate }.

(** hvclient's [Config]. *)
Record Config := {
  APIKey : string;
  APISecret : string;
  URL : string;
  TLSCert : option Certificate;
  TLSKey : option PrivateKey
}.

(** An hvclient [Client] handle, opened for a configuration. *)
Record Client := { clnt_config : option Config }.

(** The issuer resource's spec ([sampleissuerapi.IssuerSpec]). *)
Record IssuerSpec := { spec_URL : string }.

(** The library functions the package calls. The remote calls of the
    client are functions of their arguments: the CA answers each call.

    [parseCSR] is defined in this package outside signer.go. Modelled from
    the spec: it parses the CSR bytes into a request or returns a parse
    error ("Malformed input terminates the call with a parse error"). *)
Record Lib := {
  ParseCertificate : bytes -> lib_result Certificate;
  ParsePKCS1PrivateKey : bytes -> lib_result PrivateKey;
  ParsePKCS8PrivateKey : bytes -> lib_result PrivateKey;
  Config_Validate : Config -> option string;
  NewClient : option Config -> lib_result Client;
  Client_Policy : Client -> lib_result Policy;
  Client_CertificateRequest : Client -> Request -> lib_result Z;
  Client_CertificateRetrieve : Client -> Z -> lib_result CertInfo;
  Client_TrustChain : Client -> lib_result (list Certificate);
  parseCSR : bytes -> lib_result CertificateRequest
}.

(** ** HVCASignerFromIssuerAndSecretData *)

Record hvcaSigner := { config : option Config }.

(** [secret[k]]: a missing key reads as the nil slice. *)
Definition secret_get (secret : gmap string bytes) (k : string) : bytes :=
  default [] (secret !! k).

(** [certDER, _ := pem.Decode(b)]: the rest is discarded. *)
Definition pem_block (b : bytes) : option Pem.Block :=
  match Pem.Decode b with Some (blk, _) => Some blk | None => None end.

Definition err_key_type : error :=
  errors_New "unable to determine the mTLS private key type".

(** Lines 56-59: validate the configuration and wrap it. *)
Definition finish_config (L : Lib) (cfg : Config)
  : go_outcome (option hvcaSigner * option error) :=
  match Config_Validate L cfg with
  | Some m => Returned (None, Some (lib_error m))
  | None => Returned (Some {| config := Some cfg |}, None)
  end.

Definition with_key (cfg : Config) (k : PrivateKey) : Config :=
  {| APIKey := APIKey cfg; APISecret := APISecret cfg; URL := URL cfg;
     TLSCert := TLSCert cfg; TLSKey := Some k |}.

Definition HVCASignerFromIssuerAndSecretData (L : Lib) (spec : IssuerSpec)
    (secret : gmap string bytes) : go_outcome (option hvcaSigner * option error) :=
  let apikey := string_of_list_byte (secret_get secret "apikey") in
  let apisecret := string_of_list_byte (secret_get secret "apisecret") in
  let certDER := pem_block (secret_get secret "cert") in
  let keyDER := pem_block (secret_get secret "certkey") in
  match certDER with
  | None => Panicked nil_deref                        (* certDER.Bytes *)
  | Some cb =>
      match ParseCertificate L (Pem.blk_Bytes cb) with
      | LErr m => Returned (None, Some (lib_error m))
      | LOk c =>
          let cfg := {| APIKey := apikey; APISecret := apisecret;
                        URL := spec_URL spec; TLSCert := Some c; TLSKey := None |} in
          match keyDER with
          | None => Panicked nil_deref                (* keyDER.Type *)
          | Some kb =>
              if String.eqb (Pem.blk_Type kb) "RSA PRIVATE KEY" then
                match ParsePKCS1PrivateKey L (Pem.blk_Bytes kb) with
                | LErr m => Returned (None, Some (lib_error m))
                | LOk k => finish_config L (with_key cfg k)
                end
              else if String.eqb (Pem.blk_Type kb) "PRIVATE KEY" then
                match ParsePKCS8PrivateKey L (Pem.blk_Bytes kb) with
                | LErr m => Returned (None, Some (lib_error m))
                | LOk k => finish_config L (with_key cfg k)
                end
              else Returned (None, Some err_key_type)
          end
      end
  end.

(** ** Sign *)

(** The blocking remote calls of [Sign], each with whether it succeeded. *)
Inductive event :=
| ev_NewClient (ok : bool)
| ev_Policy (ok : bool)
| ev_CertificateRequest (req : Request) (ok : bool)
| ev_CertificateRetrieve (serial : Z) (ok : bool)
| ev_TrustChain (ok : bool).

(** The [([]byte, []byte, error)] triple; [None] is nil. *)
Definition sign_ret := (option bytes * option bytes * option error)%type.

(** One step of the body: go on with a value, [return] early, or panic. *)
Inductive step (A : Type) :=
| Next (a : A)
| Return (r : sign_ret)
| Panic (msg : string).
Arguments Next {A} a.
Arguments Return {A} r.
Arguments Panic {A} msg.

(** The body of [Sign] threads the trace of remote calls. *)
Definition M (A : Type) := list event -> list event * step A.

Definition ret {A} (a : A) : M A := fun tr => (tr, Next a).

Definition bind {A B} (m : M A) (k : A -> M B) : M B :=
  fun tr =>
    match m tr with
    | (tr', Next a) => k a tr'
    | (tr', Return r) => (tr', Return r)
    | (tr', Panic s) => (tr', Panic s)
    end.

Notation "x <- m ;; k" := (bind m (fun x => k))
  (at level 100, m at next level, right associativity).

Definition go_panic {A} (msg : string) : M A := fun tr => (tr, Panic msg).

(** [return nil, nil, e] *)
Definition fail_with {A} (e : error) : M A := fun tr => (tr, Return (None, None, Some e)).

(** A remote call, recorded in the trace. *)
Definition call {A} (ev : bool -> event) (r : lib_result A) : M (result A) :=
  fun tr => (tr ++ [ev (is_ok (from_lib r))], Next (from_lib r)).

(** [if err != nil { return nil, nil, err }] *)
Definition check {A} (r : result A) : M A :=
  match r with Ok a => ret a | Err e => fail_with e end.

(** Lines 86-92. *)
Definition init_request (csr : CertificateRequest) (now : Z) : Request :=
  {| req_CSR := csr;
     req_Subject := {| dn_CommonName := ""; dn_SerialNumber := "" |};
     req_SAN := {| san_DNSNames := []; san_IPAddresses := [] |};
     req_Validity := {| NotBefore := now; NotAfter := 0 |};
     req_Signature := {| HashAlgorithm := "" |} |}.

Definition set_Subject (req : Request) (s : DN) : Request :=
  {| req_CSR := req_CSR req; req_Subject := s; req_SAN := req_SAN req;
     req_Validity := req_Validity req; req_Signature := req_Signature req |}.

Definition set_CommonName (req : Request) (cn : string) : Request :=
  set_Subject req {| dn_CommonName := cn;
                     dn_SerialNumber := dn_SerialNumber (req_Subject req) |}.

Definition set_SerialNumber (req : Request) (sn : string) : Request :=
  set_Subject req {| dn_CommonName := dn_CommonName (req_Subject req);
                     dn_SerialNumber := sn |}.

Definition set_SAN (req : Request) (s : SAN) : Request :=
  {| req_CSR := req_CSR req; req_Subject := req_Subject req; req_SAN := s;
     req_Validity := req_Validity req; req_Signature := req_Signature req |}.

Definition set_DNSNames (req : Request) (l : list string) : Request :=
  set_SAN req {| san_DNSNames := l;
                 san_IPAddresses := san_IPAddresses (req_SAN req) |}.

Definition set_IPAddresses (req : Request) (l : list bytes) : Request :=
  set_SAN req {| san_DNSNames := san_DNSNames (req_SAN req);
                 san_IPAddresses := l |}.

Definition set_HashAlgorithm (req : Request) (h : string) : Request :=
  {| req_CSR := req_CSR req; req_Subject := req_Subject req;
     req_SAN := req_SAN req; req_Validity := req_Validity req;
     req_Signature := {| HashAlgorithm := h |} |}.

Definition err_cn_required : error :=
  errors_New "atlas validation policy requires subject common name, but CSR did not contain one".
Definition err_sn_required : error :=
  errors_New "atlas validation policy requires subject serial number, but CSR did not contain one".
Definition err_sans_missing : error :=
  errors_New "atlas validation policy requires additional SANs not present in the provided CSR".
Definition err_key_mismatch (csr_alg atlas_alg : string) : error :=
  errors_New ("csr public key type doesn't match Atlas account pubic key type: CSR - "
              ++ csr_alg ++ "Atlas - " ++ atlas_alg).
Definition err_key_format : error :=
  errors_New "atlas account does not support pkcs10 key format, update atlas account".

(** Lines 100-108. *)
Definition subject_common_name (vp : Policy) (csr : CertificateRequest)
    (req : Request) : result Request :=
  let cn := CommonName (csr_Subject csr) in
  let req1 :=
    if Z.eqb (SubjectDN_CommonName_Presence vp) Required then
      if String.eqb cn "" then Err err_cn_required
      else Ok (set_CommonName req cn)
    else Ok req in
  match req1 with
  | Err e => Err e
  | Ok req1 =>
      Ok (if Z.eqb (SubjectDN_CommonName_Presence vp) Optional
          then set_CommonName req1 cn else req1)
  end.

(** Lines 111-119. *)
Definition subject_serial_number (vp : Policy) (csr : CertificateRequest)
    (req : Request) : result Request :=
  let sn := SerialNumber (csr_Subject csr) in
  let req1 :=
    if Z.eqb (SubjectDN_SerialNumber_Presence vp) Required then
      if String.eqb sn "" then Err err_sn_required
      else Ok (set_SerialNumber req sn)
    else Ok req in
  match req1 with
  | Err e => Err e
  | Ok req1 =>
      Ok (if Z.eqb (SubjectDN_SerialNumber_Presence vp) Optional
          then set_SerialNumber req1 sn else req1)
  end.

(** Lines 122-130. *)
Definition populate_dns_names (vp : Policy) (csr : CertificateRequest)
    (req : Request) : Request :=
  let p := SAN_DNSNames vp in
  if negb (Static p) && (0 <? MaxCount p) then
    let req1 :=
      if Z.of_nat (length (csr_DNSNames csr)) <? MaxCount p
      then set_DNSNames req (san_DNSNames (req_SAN req) ++ csr_DNSNames csr)
      else req in
    if negb (String.eqb (dn_CommonName (req_Subject req1)) "")
       && (Z.of_nat (length (csr_DNSNames (req_CSR req1))) <? MaxCount p)
    then set_DNSNames req1
           (san_DNSNames (req_SAN req1) ++ [dn_CommonName (req_Subject req1)])
    else req1
  else req.

(** Lines 132-136. *)
Definition populate_ip_addresses (vp : Policy) (csr : CertificateRequest)
    (req : Request) : Request :=
  let p := SAN_IPAddresses vp in
  if negb (Static p) && (0 <? MaxCount p) then
    if Z.of_nat (length (csr_IPAddresses csr)) <? MaxCount p
    then set_IPAddresses req (san_IPAddresses (req_SAN req) ++ csr_IPAddresses csr)
    else req
  else req.

(** Line 138: the counts of the request as populated. *)
Definition sans_missing (vp : Policy) (req : Request) : bool :=
  (Z.of_nat (length (san_DNSNames (req_SAN req))) <? MinCount (SAN_DNSNames vp))
  || (Z.of_nat (length (san_IPAddresses (req_SAN req)))
        <? MinCount (SAN_IPAddresses vp)).

(** Lines 138-140. *)
Definition check_san_counts (vp : Policy) (req : Request) : result unit :=
  if sans_missing vp req then Err err_sans_missing else Ok tt.

(** Lines 142-144. *)
Definition check_key_type (vp : Policy) (csr : CertificateRequest) : result unit :=
  let atlas := KeyType_String (PublicKey_KeyType vp) in
  let mine := PublicKeyAlgorithm_String (csr_PublicKeyAlgorithm csr) in
  if negb (String.eqb atlas mine) then Err (err_key_mismatch mine atlas)
  else Ok tt.

(** Lines 146-148. *)
Definition check_key_format (vp : Policy) : result unit :=
  if negb (KeyFormat_eqb (PublicKey_KeyFormat vp) PKCS10)
  then Err err_key_format else Ok tt.

Definition index_out_of_range : string :=
  "runtime error: index out of range [0] with length 0".

(** Lines 150-152: [List[0]] panics on an empty list. *)
Definition select_hash (vp : Policy) (req : Request) : go_outcome Request :=
  if Z.eqb (HashAlgorithm_Presence vp) 2 then
    match HashAlgorithm_List vp with
    | [] => Panicked index_out_of_range
    | h :: _ => Returned (set_HashAlgorithm req h)
    end
  else Returned req.

(** A statement that may panic. *)
Definition may_panic {A} (o : go_outcome A) : M A :=
  match o with Returned a => ret a | Panicked s => go_panic s end.

(** [append(s, xs...)] on a byte slice: appending nothing to nil is nil. *)
Definition go_append (s : option bytes) (xs : bytes) : option bytes :=
  match s, xs with
  | None, [] => None
  | None, _ => Some xs
  | Some a, _ => Some (a ++ xs)
  end.

Definition cert_block (c : Certificate) : Pem.Block :=
  {| Pem.blk_Type := "CERTIFICATE"; Pem.blk_Bytes := Raw c |}.

(** Lines 167-175. *)
Definition encode_chain (caChainList : list Certificate) : option bytes :=
  fold_left (fun caChain c => go_append caChain (Pem.EncodeToMemory (cert_block c)))
    caChainList None.

(** Lines 71-183. *)
Definition Sign_body (L : Lib) (o : hvcaSigner) (now : Z) (csrBytes : bytes)
  : M sign_ret :=
  r_clnt <- call ev_NewClient (NewClient L (config o)) ;;
  clnt <- check r_clnt ;;
  csr <- check (from_lib (parseCSR L csrBytes)) ;;
  let req := init_request csr now in
  r_vp <- call ev_Policy (Client_Policy L clnt) ;;
  vp <- check r_vp ;;
  req <- check (subject_common_name vp csr req) ;;
  req <- check (subject_serial_number vp csr req) ;;
  let req := populate_dns_names vp csr req in
  let req := populate_ip_addresses vp csr req in
  _ <- check (check_san_counts vp req) ;;
  _ <- check (check_key_type vp csr) ;;
  _ <- check (check_key_format vp) ;;
  req <- may_panic (select_hash vp req) ;;
  r_serial <- call (ev_CertificateRequest req) (Client_CertificateRequest L clnt req) ;;
  serial <- check r_serial ;;
  r_info <- call (ev_CertificateRetrieve serial) (Client_CertificateRetrieve L clnt serial) ;;
  info <- check r_info ;;
  r_chain <- call ev_TrustChain (Client_TrustChain L clnt) ;;
  caChainList <- check r_chain ;;
  ret (Some (Pem.EncodeToMemory (cert_block (X509 info))),
       encode_chain caChainList, None).

(** [Sign]: the remote calls it made, and its outcome. *)
Definition Sign (L : Lib) (o : hvcaSigner) (now : Z) (csrBytes : bytes)
  : list event * go_outcome sign_ret :=
  match Sign_body L o now csrBytes [] with
  | (tr, Next r) => (tr, Returned r)
  | (tr, Return r) => (tr, Returned r)
  | (tr, Panic s) => (tr, Panicked s)
  end.

(** ** A sample CA and library, for concrete runs *)

Definition sample_lib (vp : Policy) (csr : CertificateRequest) (leaf : bytes)
    (chain : list Certificate) : Lib :=
  {| ParseCertificate := fun b =>
       match b with [] => LErr "x509: malformed certificate"
                  | _ => LOk {| Raw := b |} end;
     ParsePKCS1PrivateKey := fun b => LOk {| key_parser := PKCS1; key_der := b |};
     ParsePKCS8PrivateKey := fun b => LOk {| key_parser := PKCS8; key_der := b |};
     Config_Validate := fun _ => None;
     NewClient := fun oc =>
       match oc with
       | Some c => LOk {| clnt_config := Some c |}
       | None => LErr "no configuration"
       end;
     Client_Policy := fun _ => LOk vp;
     Client_CertificateRequest := fun _ _ => LOk 42;
     Client_CertificateRetrieve := fun _ _ => LOk {| X509 := {| Raw := leaf |} |};
     Client_TrustChain := fun _ => LOk chain;
     parseCSR := fun _ => LOk csr |}.

Definition sample_config : Config :=
  {| APIKey := "key"; APISecret := "secret"; URL := "https://emea.api.hvca.globalsign.com:8443/v2";
     TLSCert := Some {| Raw := [x01] |}; TLSKey := Some {| key_parser := PKCS1; key_der := [x02] |} |}.

Definition sample_signer : hvcaSigner := {| config := Some sample_config |}.

(** The policy of the end-to-end scenario: common name required, no SAN
    requirement, RSA keys, PKCS#10, hash required with [SHA256]. *)
Definition sample_policy : Policy :=
  {| SubjectDN_CommonName_Presence := Required;
     SubjectDN_SerialNumber_Presence := Optional;
     SAN_DNSNames := {| Static := false; MinCount := 0; MaxCount := 0 |};
     SAN_IPAddresses := {| Static := false; MinCount := 0; MaxCount := 0 |};
     PublicKey_KeyType := hv_RSA;
     PublicKey_KeyFormat := PKCS10;
     HashAlgorithm_Presence := Required;
     HashAlgorithm_List := ["SHA256"] |}.

Definition sample_csr (cn : string) (dns : list string) : CertificateRequest :=
  {| csr_Subject := {| CommonName := cn; SerialNumber := "" |};
     csr_DNSNames := dns; csr_IPAddresses := [];
     csr_PublicKeyAlgorithm := x509_RSA |}.

(** ** The package-level [err] under concurrent [Sign] calls

    Line 15 declares [var err error] at package level. Line 77,
    [if clnt, err = hvclient.NewClient(ctx, o.config); err != nil],
    assigns it (the local [err] is only declared at line 81) and then
    reads it back. A goroutine running [Sign] is at one of these points;
    [answer] is what [NewClient] returns to that goroutine. *)
Module Race.

Inductive pc :=
| AtNewClient (answer : result Client)
| AfterAssign (clnt : option Client)
| Continue (clnt : option Client)
| Done (r : sign_ret).

Record world := { global_err : option error; thread_a : pc; thread_b : pc }.

(** One atomic step of a goroutine, given the global [err]. *)
Definition thread_step (g : option error) (p : pc) : option error * pc :=
  match p with
  | AtNewClient (Ok c) => (None, AfterAssign (Some c))
  | AtNewClient (Err e) => (Some e, AfterAssign None)
  | AfterAssign clnt =>
      match g with
      | Some e => (g, Done (None, None, Some e))
      | None => (g, Continue clnt)
      end
  | Continue _ | Done _ => (g, p)
  end.

Inductive tid := A | B.

Definition step (t : tid) (w : world) : world :=
  match t with
  | A => let (g, p) := thread_step (global_err w) (thread_a w) in
         {| global_err := g; thread_a := p; thread_b := thread_b w |}
  | B => let (g, p) := thread_step (global_err w) (thread_b w) in
         {| global_err := g; thread_a := thread_a w; thread_b := p |}
  end.

(** Run an interleaving. *)
Fixpoint run (sched : list tid) (w : world) : world :=
  match sched with
  | [] => w
  | t :: sched' => run sched' (step t w)
  end.

(** A goroutine running alone. *)
Fixpoint run_alone (n : nat) (g : option error) (p : pc) : option error * pc :=
  match n with
  | O => (g, p)
  | S n' => let (g', p') := thread_step g p in run_alone n' g' p'
  end.

End Race.
(** Whether a recorded remote call succeeded. *)
Definition ev_ok (e : event) : bool :=
  match e with
  | ev_NewClient ok | ev_Policy ok | ev_CertificateRequest _ ok
  | ev_CertificateRetrieve _ ok | ev_TrustChain ok => ok
  end.

Definition is_request (e : event) : bool :=
  match e with ev_CertificateRequest _ _ => true | _ => false end.

(** [strings.Contains] *)
Definition contains (needle hay : string) : Prop :=
  exists pre post, hay = (pre ++ needle ++ post)%string.

(** The requests submitted to the CA in a trace. *)
Fixpoint submitted (tr : list event) : list Request :=
  match tr with
  | [] => []
  | ev_CertificateRequest req _ :: tr' => req :: submitted tr'
  | _ :: tr' => submitted tr'
  end.

(** [sample_policy] with a DNS-name SAN field of the given bounds. *)
Definition dns_policy (min max : Z) : Policy :=
  {| SubjectDN_CommonName_Presence := Required;
     SubjectDN_SerialNumber_Presence := Optional;
     SAN_DNSNames := {| Static := false; MinCount := min; MaxCount := max |};
     SAN_IPAddresses := {| Static := false; MinCount := 0; MaxCount := 0 |};
     PublicKey_KeyType := hv_RSA;
     PublicKey_KeyFormat := PKCS10;
     HashAlgorithm_Presence := Required;
     HashAlgorithm_List := ["SHA256"] |}.

(** A CA with one DNS name in the CSR and the given DNS maximum. *)
Definition dns_csr : CertificateRequest := sample_csr "example.com" ["www.example.com"].
Definition dns_lib (max : Z) : Lib := sample_lib (dns_policy 0 max) dns_csr [x05] [].
Definition sample_client : Client := {| clnt_config := Some sample_config |}.

(** A CSR with a common name and no DNS name, under a DNS minimum of 1. *)
Definition backfill_csr : CertificateRequest := sample_csr "example.com" [].
Definition backfill_lib : Lib := sample_lib (dns_policy 1 3) backfill_csr [x05] [].

(** A CSR with an ECDSA key, under the RSA policy of [sample_policy]. *)
Definition ecdsa_csr : CertificateRequest :=
  {| csr_Subject := {| CommonName := "example.com"; SerialNumber := "" |};
     csr_DNSNames := []; csr_IPAddresses := [];
     csr_PublicKeyAlgorithm := x509_ECDSA |}.
Definition ecdsa_lib : Lib := sample_lib sample_policy ecdsa_csr [x05] [].

(** [sample_policy] with a hash algorithm required and none listed. *)
Definition empty_hash_policy : Policy :=
  {| SubjectDN_CommonName_Presence := Required;
     SubjectDN_SerialNumber_Presence := Optional;
     SAN_DNSNames := {| Static := false; MinCount := 0; MaxCount := 0 |};
     SAN_IPAddresses := {| Static := false; MinCount := 0; MaxCount := 0 |};
     PublicKey_KeyType := hv_RSA;
     PublicKey_KeyFormat := PKCS10;
     HashAlgorithm_Presence := Required;
     HashAlgorithm_List := [] |}.
Definition empty_hash_lib : Lib :=
  sample_lib empty_hash_policy (sample_csr "example.com" []) [x05] [].

(** A CA returning a two-certificate chain. *)
Definition chain_lib : Lib :=
  sample_lib sample_policy (sample_csr "example.com" []) [x05; x06]
    [{| Raw := [x07; x08; x09] |}; {| Raw := [x0a] |}].

(** Issuer resources and their secrets. *)
Definition sample_spec : IssuerSpec :=
  {| spec_URL := "https://emea.api.hvca.globalsign.com:8443/v2" |}.

Definition sample_secret (cert key : bytes) : gmap string bytes :=
  <["apikey" := list_byte_of_string "key"]>
    (<["apisecret" := list_byte_of_string "secret"]>
       (<["cert" := cert]> (<["certkey" := key]> ∅))).

Definition cert_pem : bytes := Pem.EncodeToMemory (cert_block {| Raw := [x01] |}).

Definition key_pem (ty : string) : bytes :=
  Pem.EncodeToMemory {| Pem.blk_Type := ty; Pem.blk_Bytes := [x02] |}.

(** The same bytes with [\r\n] line ends. *)
Fixpoint crlf (l : bytes) : bytes :=
  match l with
  | [] => []
  | c :: l' => if Byte.eqb c Pem.nl then Pem.cr :: Pem.nl :: crlf l' else c :: crlf l'
  end.

(** A certificate block whose END marker follows the base64 on its line:
    [pem.Decode] requires it at the start of a line and finds no block. *)
Definition glued_cert_pem : bytes :=
  list_byte_of_string "-----BEGIN CERTIFICATE-----" ++ [Pem.nl]
  ++ list_byte_of_string "AQ==-----END CERTIFICATE-----" ++ [Pem.nl].

(** The remote calls of [Sign] by kind, and the order lines 77-162 make them in. *)
Inductive call_kind := kNewClient | kPolicy | kCertificateRequest
                     | kCertificateRetrieve | kTrustChain.

Definition ev_kind (e : event) : call_kind :=
  match e with
  | ev_NewClient _ => kNewClient
  | ev_Policy _ => kPolicy
  | ev_CertificateRequest _ _ => kCertificateRequest
  | ev_CertificateRetrieve _ _ => kCertificateRetrieve
  | ev_TrustChain _ => kTrustChain
  end.

Definition call_order : list call_kind :=
  [kNewClient; kPolicy; kCertificateRequest; kCertificateRetrieve; kTrustChain].

(** Whether lines 100-108 (or 111-119) copy a subject field of the CSR:
    the field's presence is [Required] or [Optional]. *)
Definition copies_field (presence : Z) : bool :=
  Z.eqb presence Required || Z.eqb presence Optional.

(** A policy copying the common name if present, never the serial number,
    with room for DNS names and IP addresses and two hash algorithms. *)
Definition rich_policy : Policy :=
  {| SubjectDN_CommonName_Presence := Optional;
     SubjectDN_SerialNumber_Presence := Forbidden;
     SAN_DNSNames := {| Static := false; MinCount := 1; MaxCount := 5 |};
     SAN_IPAddresses := {| Static := false; MinCount := 0; MaxCount := 2 |};
     PublicKey_KeyType := hv_RSA;
     PublicKey_KeyFormat := PKCS10;
     HashAlgorithm_Presence := Required;
     HashAlgorithm_List := ["SHA384"; "SHA256"] |}.

Definition rich_csr : CertificateRequest :=
  {| csr_Subject := {| CommonName := "example.com"; SerialNumber := "1234" |};
     csr_DNSNames := ["www.example.com"]; csr_IPAddresses := [[x0a; x00; x00; x01]];
     csr_PublicKeyAlgorithm := x509_RSA |}.

Definition rich_lib : Lib := sample_lib rich_policy rich_csr [x05] [].

(** A CA refusing every certificate request. *)
Definition refusing_lib : Lib :=
  {| ParseCertificate := ParseCertificate (sample_lib sample_policy (sample_csr "example.com" []) [x05] []);
     ParsePKCS1PrivateKey := ParsePKCS1PrivateKey (sample_lib sample_policy (sample_csr "example.com" []) [x05] []);
     ParsePKCS8PrivateKey := ParsePKCS8PrivateKey (sample_lib sample_policy (sample_csr "example.com" []) [x05] []);
     Config_Validate := Config_Validate (sample_lib sample_policy (sample_csr "example.com" []) [x05] []);
     NewClient := NewClient (sample_lib sample_policy (sample_csr "example.com" []) [x05] []);
     Client_Policy := Client_Policy (sample_lib sample_policy (sample_csr "example.com" []) [x05] []);
     Client_CertificateRequest := fun _ _ => LErr "request refused";
     Client_CertificateRetrieve := Client_CertificateRetrieve (sample_lib sample_policy (sample_csr "example.com" []) [x05] []);
     Client_TrustChain := Client_TrustChain (sample_lib sample_policy (sample_csr "example.com" []) [x05] []);
     parseCSR := parseCSR (sample_lib sample_policy (sample_csr "example.com" []) [x05] []) |}.

(** [sample_policy] requiring the subject serial number too. *)
Definition sn_policy : Policy :=
  {| SubjectDN_CommonName_Presence := Required;
     SubjectDN_SerialNumber_Presence := Required;
     SAN_DNSNames := {| Static := false; MinCount := 0; MaxCount := 0 |};
     SAN_IPAddresses := {| Static := false; MinCount := 0; MaxCount := 0 |};
     PublicKey_KeyType := hv_RSA;
     PublicKey_KeyFormat := PKCS10;
     HashAlgorithm_Presence := Required;
     HashAlgorithm_List := ["SHA256"] |}.

(** [sample_policy] for an account set up for PKCS#8 keys. *)
Definition pkcs8_policy : Policy :=
  {| SubjectDN_CommonName_Presence := Required;
     SubjectDN_SerialNumber_Presence := Optional;
     SAN_DNSNames := {| Static := false; MinCount := 0; MaxCount := 0 |};
     SAN_IPAddresses := {| Static := false; MinCount := 0; MaxCount := 0 |};
     PublicKey_KeyType := hv_RSA;
     PublicKey_KeyFormat := hv_PKCS8;
     HashAlgorithm_Presence := Required;
     HashAlgorithm_List := ["SHA256"] |}.

(** * Proofs *)

(** ** The PEM codec round-trips *)
Module PemFacts.
Import Pem.

Lemma div_mod_split (x y k : Z) :
  0 < k -> 0 <= y < k -> (x * k + y) / k = x /\ (x * k + y) mod k = y.
Proof.
  intros Hk Hy. split.
  - symmetry. apply (Z.div_unique _ _ _ y); lia.
  - symmetry. apply (Z.mod_unique _ _ x); lia.
Qed.

(** Four base-64 digits of a 24-bit value give it back. *)
Lemma sextets (v : Z) :
  0 <= v < 16777216 ->
  (v / 262144 mod 64) * 262144 + (v / 4096 mod 64) * 4096
    + (v / 64 mod 64) * 64 + v mod 64 = v.
Proof.
  intros Hv.
  assert (E1 : v / 4096 = v / 64 / 64)
    by (rewrite Z.div_div by lia; reflexivity).
  assert (E2 : v / 262144 = v / 64 / 64 / 64)
    by (rewrite !Z.div_div by lia; reflexivity).
  rewrite E1, E2.
  pose proof (Z.div_mod v 64 ltac:(lia)) as D1.
  pose proof (Z.div_mod (v / 64) 64 ltac:(lia)) as D2.
  pose proof (Z.div_mod (v / 64 / 64) 64 ltac:(lia)) as D3.
  pose proof (Z.mod_pos_bound v 64 ltac:(lia)).
  pose proof (Z.mod_pos_bound (v / 64) 64 ltac:(lia)).
  pose proof (Z.mod_pos_bound (v / 64 / 64) 64 ltac:(lia)).
  assert (0 <= v / 64 / 64 / 64 < 64).
  { split; [apply Z.div_pos; [apply Z.div_pos; [apply Z.div_pos|]|]; lia|].
    apply Z.div_lt_upper_bound; [lia|].
    apply Z.div_lt_upper_bound; [lia|].
    apply Z.div_lt_upper_bound; lia. }
  rewrite (Z.mod_small (v / 64 / 64 / 64) 64) by lia.
  lia.
Qed.

Lemma bytes3 (a b c : Z) :
  0 <= a < 256 -> 0 <= b < 256 -> 0 <= c < 256 ->
  let v := a * 65536 + b * 256 + c in
  v / 65536 mod 256 = a /\ v / 256 mod 256 = b /\ v mod 256 = c.
Proof.
  intros Ha Hb Hc v. subst v.
  destruct (div_mod_split a (b * 256 + c) 65536) as [Q1 _]; [lia|lia|].
  destruct (div_mod_split (a * 256 + b) c 256) as [Q2 R2]; [lia|lia|].
  destruct (div_mod_split a b 256) as [_ R3]; [lia|lia|].
  replace (a * 65536 + b * 256 + c) with (a * 65536 + (b * 256 + c)) by lia.
  rewrite Q1. rewrite Z.mod_small by lia.
  replace (a * 65536 + (b * 256 + c)) with ((a * 256 + b) * 256 + c) by lia.
  rewrite Q2, R2, R3. auto.
Qed.

Lemma bz_range (b : byte) : 0 <= bz b < 256.
Proof. unfold bz. pose proof (Byte.to_N_bounded b). lia. Qed.

Lemma zb_bz (b : byte) : zb (bz b) = b.
Proof. unfold zb, bz. rewrite N2Z.id, Byte.of_to_N. reflexivity. Qed.

(** The alphabet: each digit's character decodes to the digit. *)
Lemma dec_enc_nat (n : nat) :
  (n < 64)%nat -> dec_char (enc_char (Z.of_nat n)) = Some (Z.of_nat n).
Proof.
  intros H.
  do 64 (destruct n as [|n]; [reflexivity|]).
  lia.
Qed.

Lemma dec_enc (d : Z) : 0 <= d < 64 -> dec_char (enc_char d) = Some d.
Proof.
  intros H. rewrite <- (Z2Nat.id d) by lia.
  apply dec_enc_nat. lia.
Qed.

Lemma enc_char_In (d : Z) : 0 <= d < 64 -> In (enc_char d) b64_alphabet.
Proof.
  intros H. unfold enc_char. apply nth_In.
  change (length b64_alphabet) with 64%nat. lia.
Qed.

(** The bytes [pem.Decode] drops from a body. *)
Definition is_space (c : byte) : bool := is_crlf c || is_space_tab c.

Definition plain_char (c : byte) : bool :=
  negb (Byte.eqb c "-"%byte) && negb (is_space c) && negb (Byte.eqb c pad).

Lemma alphabet_plain : forallb plain_char b64_alphabet = true.
Proof. reflexivity. Qed.

Lemma enc_char_plain (d : Z) : 0 <= d < 64 -> plain_char (enc_char d) = true.
Proof.
  intros H. pose proof alphabet_plain as P.
  rewrite forallb_forall in P. apply P, enc_char_In, H.
Qed.

Lemma enc_char_not_pad (d : Z) : 0 <= d < 64 -> Byte.eqb (enc_char d) pad = false.
Proof.
  intros H. pose proof (enc_char_plain d H) as P. unfold plain_char in P.
  destruct (Byte.eqb (enc_char d) pad); [|reflexivity].
  rewrite andb_false_r in P. discriminate.
Qed.

Lemma mod64_range (v : Z) : 0 <= v mod 64 < 64.
Proof. apply Z.mod_pos_bound. lia. Qed.

Ltac digits :=
  repeat first
    [ rewrite dec_enc by apply mod64_range
    | rewrite enc_char_not_pad by apply mod64_range ].

Lemma b64_roundtrip_n (n : nat) (bs : bytes) :
  (length bs <= n)%nat -> b64_decode (b64_encode bs) = Some bs.
Proof.
  revert bs. induction n as [|n IH]; intros bs Hlen.
  { destruct bs; [reflexivity | simpl in Hlen; lia]. }
  destruct bs as [|b1 [|b2 [|b3 rest]]].
  - reflexivity.
  - (* one byte, two padding characters *)
    cbn [b64_encode b64_decode]. digits. cbn.
    pose proof (bz_range b1) as R1.
    set (v := bz b1 * 65536).
    assert (M1 : v / 64 mod 64 = 0).
    { subst v. replace (bz b1 * 65536) with ((bz b1 * 16) * 64 * 64) by lia.
      rewrite Z.div_mul by lia. apply Z.mod_mul. lia. }
    assert (M0 : v mod 64 = 0).
    { subst v. replace (bz b1 * 65536) with ((bz b1 * 1024) * 64) by lia.
      apply Z.mod_mul. lia. }
    pose proof (sextets v ltac:(subst v; lia)) as S.
    rewrite M1, M0 in S.
    replace (v / 262144 mod 64 * 262144 + v / 4096 mod 64 * 4096) with v by lia.
    destruct (bytes3 (bz b1) 0 0 R1 ltac:(lia) ltac:(lia)) as [B1 _].
    replace (bz b1 * 65536 + 0 * 256 + 0) with v in B1 by (subst v; lia).
    rewrite B1, zb_bz. reflexivity.
  - (* two bytes, one padding character *)
    cbn [b64_encode b64_decode]. digits. cbn.
    pose proof (bz_range b1) as R1. pose proof (bz_range b2) as R2.
    set (v := bz b1 * 65536 + bz b2 * 256).
    assert (M0 : v mod 64 = 0).
    { subst v. replace (bz b1 * 65536 + bz b2 * 256)
        with ((bz b1 * 1024 + bz b2 * 4) * 64) by lia.
      apply Z.mod_mul. lia. }
    pose proof (sextets v ltac:(subst v; lia)) as S.
    rewrite M0 in S.
    replace (v / 262144 mod 64 * 262144 + v / 4096 mod 64 * 4096
             + v / 64 mod 64 * 64) with v by lia.
    destruct (bytes3 (bz b1) (bz b2) 0 R1 R2 ltac:(lia)) as [B1 [B2 _]].
    replace (bz b1 * 65536 + bz b2 * 256 + 0) with v in B1, B2 by (subst v; lia).
    rewrite B1, B2, !zb_bz. reflexivity.
  - (* a full group of three bytes *)
    cbn [b64_encode b64_decode]. digits.
    rewrite IH by (simpl in Hlen; lia).
    pose proof (bz_range b1) as R1. pose proof (bz_range b2) as R2.
    pose proof (bz_range b3) as R3.
    set (v := bz b1 * 65536 + bz b2 * 256 + bz b3).
    rewrite (sextets v) by (subst v; lia).
    destruct (bytes3 (bz b1) (bz b2) (bz b3) R1 R2 R3) as [B1 [B2 B3]].
    fold v in B1, B2, B3.
    rewrite B1, B2, B3, !zb_bz. reflexivity.
Qed.

Lemma b64_roundtrip (bs : bytes) : b64_decode (b64_encode bs) = Some bs.
Proof. apply (b64_roundtrip_n (length bs)). lia. Qed.

Definition no_dash (c : byte) : bool := negb (Byte.eqb "-"%byte c).
Definition no_colon (c : byte) : bool := negb (Byte.eqb ":"%byte c).
Definition not_space (c : byte) : bool := negb (is_space c).
Definition not_nl (c : byte) : bool := negb (Byte.eqb c nl).

(** The characters of an encoded body: base64 digits, padding and
    newlines have no dash, no colon and no blank other than newlines. *)
Definition body_char (c : byte) : bool := no_dash c && no_colon c && not_space c.

(** The characters of a block type that [pem.Decode] gives back: no
    newline, and no colon (a colon would make the END line of an empty
    block a header line). *)
Definition type_char (c : byte) : bool := not_nl c && no_colon c.

Lemma enc_char_body (d : Z) : 0 <= d < 64 -> body_char (enc_char d) = true.
Proof.
  intros H. apply enc_char_In in H.
  assert (P : forallb body_char b64_alphabet = true) by reflexivity.
  rewrite forallb_forall in P. apply P, H.
Qed.

Lemma b64_encode_body_n (n : nat) (bs : bytes) :
  (length bs <= n)%nat -> forallb body_char (b64_encode bs) = true.
Proof.
  revert bs. induction n as [|n IH]; intros bs Hlen.
  { destruct bs; [reflexivity | simpl in Hlen; lia]. }
  destruct bs as [|b1 [|b2 [|b3 rest]]]; cbn [b64_encode forallb];
    repeat rewrite enc_char_body by apply mod64_range; try reflexivity.
  rewrite IH by (simpl in Hlen; lia). reflexivity.
Qed.

Lemma b64_encode_body (bs : bytes) : forallb body_char (b64_encode bs) = true.
Proof. apply (b64_encode_body_n (length bs)). lia. Qed.

Lemma forallb_weaken (P Q : byte -> bool) (l : bytes) :
  (forall c, P c = true -> Q c = true) -> forallb P l = true -> forallb Q l = true.
Proof.
  intros HPQ. rewrite !forallb_forall. intros H c Hc. apply HPQ, H, Hc.
Qed.

Lemma line_break_forall (P : byte -> bool) (k : nat) (s : bytes) :
  P nl = true -> forallb P s = true -> forallb P (line_break k s) = true.
Proof.
  intros Hnl. revert k. induction s as [|c s IH]; intros k H.
  - destruct k; simpl; rewrite ?Hnl; reflexivity.
  - simpl in H. apply andb_prop in H as [Hc Hs].
    simpl. destruct (Nat.eqb k 63); simpl; rewrite Hc, ?Hnl, IH by exact Hs;
      reflexivity.
Qed.

Lemma line_break_filter (k : nat) (s : bytes) :
  forallb not_space s = true ->
  List.filter not_space (line_break k s) = s.
Proof.
  revert k. induction s as [|c s IH]; intros k H.
  - destruct k; reflexivity.
  - simpl in H. apply andb_prop in H as [Hc Hs].
    simpl. destruct (Nat.eqb k 63).
    + cbn [List.filter]; rewrite Hc. cbn. f_equal. apply IH, Hs.
    + cbn [List.filter]; rewrite Hc. f_equal. apply IH, Hs.
Qed.

(** A non-empty encoding ends in a newline. *)
Lemma line_break_snoc (k : nat) (s : bytes) :
  s <> [] -> exists B, line_break k s = B ++ [nl].
Proof.
  revert k. induction s as [|c s IH]; intros k H; [contradiction|].
  destruct s as [|c' s'].
  - exists [c]. simpl. destruct (Nat.eqb k 63); reflexivity.
  - destruct (IH 0%nat ltac:(discriminate)) as [B0 HB0].
    destruct (IH (S k) ltac:(discriminate)) as [B1 HB1].
    change (line_break k (c :: c' :: s')) with
      (if Nat.eqb k 63 then c :: nl :: line_break 0 (c' :: s')
       else c :: line_break (S k) (c' :: s')).
    destruct (Nat.eqb k 63).
    + exists (c :: nl :: B0). rewrite HB0. reflexivity.
    + exists (c :: B1). rewrite HB1. reflexivity.
Qed.

Lemma filter_removeSpacesAndTabs (l : bytes) :
  List.filter (fun c => negb (is_crlf c)) (removeSpacesAndTabs l)
  = List.filter not_space l.
Proof.
  unfold removeSpacesAndTabs, not_space, is_space.
  induction l as [|c l IH]; [reflexivity|].
  cbn [List.filter]. destruct (is_space_tab c); cbn [List.filter negb];
    destruct (is_crlf c); cbn [negb orb]; rewrite ?IH; reflexivity.
Qed.

Lemma has_prefix_app (p l : bytes) : has_prefix p (p ++ l) = true.
Proof.
  induction p as [|x p IH]; [reflexivity|].
  simpl. rewrite IH, andb_true_r. apply Byte.byte_dec_lb. reflexivity.
Qed.

Lemma has_suffix_app (s t : bytes) : has_suffix s (t ++ s) = true.
Proof. unfold has_suffix. rewrite rev_app_distr. apply has_prefix_app. Qed.

Lemma has_prefix_length (p l : bytes) :
  has_prefix p l = true -> (length p <= length l)%nat.
Proof.
  revert l. induction p as [|x p IH]; intros l H; [simpl; lia|].
  destruct l as [|y l]; [discriminate|].
  simpl in H. apply andb_prop in H as [_ H]. simpl. apply IH in H. lia.
Qed.

Lemma cut_unfold (pat acc l : bytes) :
  cut pat acc l =
  if has_prefix pat l then Some (rev acc, drop (length pat) l)
  else match l with [] => None | c :: l' => cut pat (c :: acc) l' end.
Proof. destruct l; reflexivity. Qed.

Lemma cut_after_unfold (pat l : bytes) :
  cut_after pat l =
  if has_prefix pat l then Some (drop (length pat) l)
  else match l with [] => None | _ :: l' => cut_after pat l' end.
Proof. destruct l; reflexivity. Qed.

Lemma index_unfold (pat l : bytes) :
  index pat l =
  if has_prefix pat l then Some O
  else match l with
       | [] => None
       | _ :: l' => match index pat l' with Some i => Some (S i) | None => None end
       end.
Proof. destruct l; reflexivity. Qed.

Lemma split_nl_app (xs ys : bytes) :
  forallb not_nl xs = true -> split_nl (xs ++ nl :: ys) = (xs, Some ys).
Proof.
  induction xs as [|x xs IH]; intros H; [reflexivity|].
  simpl in H. apply andb_prop in H as [Hx Hxs].
  unfold not_nl in Hx. apply negb_true_iff in Hx.
  simpl. rewrite Hx, IH by exact Hxs. reflexivity.
Qed.

Lemma getLine_rest (xs ys : bytes) :
  forallb not_nl xs = true -> snd (getLine (xs ++ nl :: ys)) = ys.
Proof. intros H. unfold getLine. rewrite split_nl_app by exact H. reflexivity. Qed.

(** A line ending in a byte that is no blank is given whole. *)
Lemma getLine_app (xs ys : bytes) (x : byte) :
  forallb not_nl xs = true -> not_nl x = true ->
  Byte.eqb x cr = false -> is_space_tab x = false ->
  getLine ((xs ++ [x]) ++ nl :: ys) = (xs ++ [x], ys).
Proof.
  intros Hxs Hx Hcr Hsp. unfold getLine.
  rewrite split_nl_app by (rewrite forallb_app, Hxs; simpl; rewrite Hx; reflexivity).
  rewrite rev_unit, Hcr. unfold trim_right. rewrite rev_unit. cbn [drop_space_tab].
  rewrite Hsp. cbn [rev]. rewrite rev_involutive. reflexivity.
Qed.

Lemma drop_space_tab_In (l : bytes) (c : byte) : In c (drop_space_tab l) -> In c l.
Proof.
  induction l as [|x l IH]; simpl; [tauto|].
  destruct (is_space_tab x); [intros H; right; apply IH, H | tauto].
Qed.

Lemma trim_right_In (l : bytes) (c : byte) : In c (trim_right l) -> In c l.
Proof.
  unfold trim_right. rewrite <- in_rev. intros H. apply drop_space_tab_In in H.
  apply in_rev in H. exact H.
Qed.

Lemma getLine_In (l : bytes) (c : byte) :
  In c (fst (getLine l)) -> In c (fst (split_nl l)).
Proof.
  unfold getLine. destruct (split_nl l) as [line [r|]]; cbn [fst];
    intros H; apply trim_right_In in H; [|exact H].
  destruct (rev line) as [|x r'] eqn:E; [exact H|].
  destruct (Byte.eqb x cr); [|exact H].
  apply in_rev. rewrite E. right. apply in_rev, H.
Qed.

Lemma split_nl_In (xs ys : bytes) (c : byte) :
  In c (fst (split_nl (xs ++ nl :: ys))) -> In c xs.
Proof.
  induction xs as [|x xs IH]; simpl.
  - replace (Byte.eqb nl nl) with true by reflexivity. simpl. tauto.
  - destruct (Byte.eqb x nl); [simpl; tauto|].
    destruct (split_nl (xs ++ nl :: ys)) as [a r]. simpl.
    intros [->|H]; [left; reflexivity | right; apply IH, H].
Qed.

Lemma cut_colon_none (acc l : bytes) :
  forallb no_colon l = true -> cut colon acc l = None.
Proof.
  revert acc. induction l as [|c l IH]; intros acc H; [reflexivity|].
  simpl in H. apply andb_prop in H as [Hc Hl].
  unfold no_colon in Hc. apply negb_true_iff in Hc.
  rewrite cut_unfold. change colon with [":"%byte]. cbn [has_prefix].
  rewrite Hc. apply IH, Hl.
Qed.

(** A first line without a colon ends the header loop at once. *)
Lemma headers_none (n : nat) (rest : bytes) (seen : bool) :
  rest <> [] ->
  (forall c, In c (fst (getLine rest)) -> no_colon c = true) ->
  headers (S n) rest seen = Some (rest, seen).
Proof.
  intros Hne Hc. destruct rest as [|b r]; [contradiction|].
  cbn [headers]. destruct (getLine _) as [line next] eqn:E.
  rewrite cut_colon_none; [reflexivity|].
  apply forallb_forall. intros c Hin. apply Hc. exact Hin.
Qed.

(** The first END line of a body without a dash is found after it. *)
Lemma index_pemEnd (B Y : bytes) :
  forallb no_dash B = true -> index pemEnd (B ++ pemEnd ++ Y) = Some (length B).
Proof.
  induction B as [|b B IH]; intros H.
  - rewrite app_nil_l, index_unfold, has_prefix_app. reflexivity.
  - simpl in H. apply andb_prop in H as [_ HB].
    assert (Hf : has_prefix pemEnd (b :: B ++ pemEnd ++ Y) = false).
    { destruct B as [|b' B'].
      - cbn. apply andb_false_r.
      - simpl in HB. apply andb_prop in HB as [Hb' _].
        unfold no_dash in Hb'. apply negb_true_iff in Hb'.
        cbn [app]. change pemEnd with (nl :: "-"%byte :: list_byte_of_string "----END ")
          at 1. cbn [has_prefix]. rewrite Hb'. apply andb_false_r. }
    rewrite <- app_comm_cons, index_unfold, Hf, IH by exact HB. reflexivity.
Qed.

Lemma getLine_nl (ys : bytes) : getLine (nl :: ys) = ([], ys).
Proof. reflexivity. Qed.

Lemma take_type (T : bytes) :
  take (length (T ++ pemEndOfLine) - length pemEndOfLine) (T ++ pemEndOfLine) = T.
Proof. rewrite length_app, Nat.add_sub. apply take_app_length. Qed.

Lemma getLine_typeLine (T ys : bytes) :
  forallb not_nl T = true ->
  getLine ((T ++ pemEndOfLine) ++ nl :: ys) = (T ++ pemEndOfLine, ys).
Proof.
  intros HT.
  replace (T ++ pemEndOfLine)
    with ((T ++ list_byte_of_string "----") ++ ["-"%byte])
    by (rewrite <- app_assoc; reflexivity).
  apply getLine_app; try reflexivity.
  rewrite forallb_app, HT. reflexivity.
Qed.

(** The END line of a block of type [T], from the type on. *)
Lemma end_line (T rest : bytes) :
  forallb not_nl T = true ->
  let R2 := T ++ pemEndOfLine ++ [nl] ++ rest in
  let endTrailerLen := (length T + length pemEndOfLine)%nat in
  Nat.ltb (length R2) endTrailerLen = false
  /\ drop endTrailerLen R2 = nl :: rest
  /\ take endTrailerLen R2 = T ++ pemEndOfLine
  /\ has_prefix T (take endTrailerLen R2) && has_suffix pemEndOfLine (take endTrailerLen R2) = true
  /\ snd (getLine R2) = rest.
Proof.
  intros HT R2 n.
  assert (E : R2 = (T ++ pemEndOfLine) ++ nl :: rest)
    by (subst R2; rewrite <- app_assoc; reflexivity).
  assert (En : n = length (T ++ pemEndOfLine)) by (subst n; rewrite length_app; reflexivity).
  assert (D : drop n R2 = nl :: rest) by (rewrite E, En; apply drop_app_length).
  assert (Tk : take n R2 = T ++ pemEndOfLine) by (rewrite E, En; apply take_app_length).
  split; [|split; [exact D|split; [exact Tk|split]]].
  - apply Nat.ltb_ge. rewrite E, En, !length_app. simpl. lia.
  - rewrite Tk, has_prefix_app, has_suffix_app. reflexivity.
  - rewrite E. apply getLine_rest. rewrite forallb_app, HT. reflexivity.
Qed.

(** One round of the loop of [pem.Decode] gives back an encoded block
    whose type is one line without a colon, and the bytes after it. *)
Lemma decode_round_EncodeToMemory (blk : Block) (rest : bytes) :
  forallb type_char (list_byte_of_string (blk_Type blk)) = true ->
  decode_round (EncodeToMemory blk ++ rest) = Done (Some (blk, rest)).
Proof.
  intros HT. destruct blk as [T bs]. cbn [blk_Type] in HT.
  set (T' := list_byte_of_string T) in *.
  assert (HTn : forallb not_nl T' = true)
    by (revert HT; apply forallb_weaken; unfold type_char; intros c Hc;
        apply andb_prop in Hc; tauto).
  assert (HTc : forallb no_colon T' = true)
    by (revert HT; apply forallb_weaken; unfold type_char; intros c Hc;
        apply andb_prop in Hc; tauto).
  set (body := line_break 0 (b64_encode bs)).
  assert (Hbody : forallb (fun c => no_dash c && no_colon c) body = true).
  { apply line_break_forall; [reflexivity|].
    generalize (b64_encode_body bs). apply forallb_weaken.
    unfold body_char. intros c Hc. apply andb_prop in Hc. tauto. }
  set (R2 := T' ++ pemEndOfLine ++ [nl] ++ rest).
  set (R := body ++ drop 1 pemEnd ++ R2).
  assert (ES : EncodeToMemory {| blk_Type := T; blk_Bytes := bs |} ++ rest
               = drop 1 pemStart ++ (T' ++ pemEndOfLine) ++ nl :: R)
    by (unfold EncodeToMemory; cbn [blk_Type blk_Bytes]; fold T' body;
        subst R R2; rewrite <- !app_assoc; reflexivity).
  assert (HR : R <> []).
  { subst R. destruct body; discriminate. }
  assert (HH : headers (S (length R)) R false = Some (R, false)).
  { apply headers_none; [exact HR|]. intros c Hc.
    apply getLine_In in Hc.
    replace R with ((body ++ drop 1 pemEnd ++ T' ++ pemEndOfLine) ++ nl :: rest) in Hc
      by (subst R R2; rewrite <- !app_assoc; reflexivity).
    apply split_nl_In in Hc.
    assert (P : forallb no_colon (body ++ drop 1 pemEnd ++ T' ++ pemEndOfLine) = true).
    { rewrite !forallb_app, HTc.
      rewrite (forallb_weaken (fun c => no_dash c && no_colon c) no_colon body);
        [reflexivity| |exact Hbody].
      intros x Hx. apply andb_prop in Hx. tauto. }
    rewrite forallb_forall in P. apply P, Hc. }
  destruct (end_line T' rest HTn) as [L1 [L2 [L3 [L4 L6]]]].
  fold R2 in L1, L2, L3, L4, L6.
  unfold decode_round. rewrite ES, has_prefix_app.
  change (length pemStart - 1)%nat with (length (drop 1 pemStart)).
  rewrite drop_app_length, getLine_typeLine by exact HTn.
  cbv beta iota zeta. rewrite has_suffix_app. cbn [negb].
  rewrite take_type, HH. cbn [negb andb].
  destruct bs as [|b bs'].
  - (* an empty body: the END line follows the BEGIN line *)
    assert (Eb : body = []) by reflexivity.
    assert (ER : R = drop 1 pemEnd ++ R2) by (subst R; rewrite Eb; reflexivity).
    rewrite ER, has_prefix_app. cbv beta iota zeta.
    change (length pemEnd - 1)%nat with (length (drop 1 pemEnd)).
    rewrite drop_app_length, L1, L2, L4. cbn [negb]. cbv beta iota zeta.
    rewrite getLine_nl. cbn [take removeSpacesAndTabs StdEncoding_Decode].
    change (0 + length pemEnd - 1)%nat with (length (drop 1 pemEnd)).
    rewrite drop_app_length, L6. subst T'.
    rewrite string_of_list_byte_of_string. reflexivity.
  - (* a body of base64 lines, the last ending in a newline *)
    destruct (line_break_snoc 0 (b64_encode (b :: bs'))) as [B HB].
    { destruct bs' as [|? [|? ?]]; discriminate. }
    fold body in HB.
    assert (HBc : forallb (fun c => no_dash c && no_colon c) B = true)
      by (rewrite HB, forallb_app in Hbody; apply andb_prop in Hbody; tauto).
    assert (HBd : forallb no_dash B = true).
    { revert HBc. apply forallb_weaken. intros x Hx. apply andb_prop in Hx. tauto. }
    assert (ER : R = B ++ pemEnd ++ R2)
      by (subst R; rewrite HB, <- app_assoc; reflexivity).
    assert (Hp : has_prefix (drop 1 pemEnd) R = false).
    { rewrite ER. destruct B as [|b0 B']; [reflexivity|].
      simpl in HBd. apply andb_prop in HBd as [Hb0 _].
      unfold no_dash in Hb0. apply negb_true_iff in Hb0.
      cbn [app]. change (drop 1 pemEnd) with ("-"%byte :: list_byte_of_string "----END ").
      cbn [has_prefix]. rewrite Hb0. reflexivity. }
    rewrite Hp. rewrite ER at 1. rewrite index_pemEnd by exact HBd.
    cbv beta iota zeta. rewrite ER.
    replace (length B + length pemEnd)%nat with (length (B ++ pemEnd)) by apply length_app.
    rewrite app_assoc, drop_app_length, L1, L2, L4. cbn [negb]. cbv beta iota zeta.
    rewrite getLine_nl, <- app_assoc, take_app_length.
    unfold StdEncoding_Decode. rewrite filter_removeSpacesAndTabs.
    assert (FB : List.filter not_space B = b64_encode (b :: bs')).
    { pose proof (line_break_filter 0 (b64_encode (b :: bs'))) as F.
      fold body in F. rewrite HB, List.filter_app in F. cbn in F.
      rewrite app_nil_r in F. apply F.
      generalize (b64_encode_body (b :: bs')). apply forallb_weaken.
      unfold body_char. intros x Hx. apply andb_prop in Hx. tauto. }
    rewrite FB, b64_roundtrip.
    assert (Ed : drop (length (B ++ pemEnd) - 1) (B ++ pemEnd ++ R2)
                 = (" "%byte :: T' ++ pemEndOfLine) ++ nl :: rest).
    { replace (B ++ pemEnd ++ R2)
        with ((B ++ nl :: list_byte_of_string "-----END") ++ " "%byte :: R2)
        by (rewrite <- app_assoc; reflexivity).
      replace (length (B ++ pemEnd) - 1)%nat
        with (length (B ++ nl :: list_byte_of_string "-----END"))
        by (rewrite !length_app; simpl; lia).
      rewrite drop_app_length. subst R2. cbn [app]. rewrite <- app_assoc. reflexivity. }
    rewrite Ed, getLine_rest by (simpl; rewrite forallb_app, HTn; reflexivity).
    cbn [fst snd]. subst T'. rewrite string_of_list_byte_of_string. reflexivity.
Qed.

Lemma Decode_EncodeToMemory (blk : Block) (rest : bytes) :
  forallb type_char (list_byte_of_string (blk_Type blk)) = true ->
  Decode (EncodeToMemory blk ++ rest) = Some (blk, rest).
Proof.
  intros HT. unfold Decode. cbn [decode_loop].
  rewrite decode_round_EncodeToMemory by exact HT. reflexivity.
Qed.

Lemma Decode_nil : Decode [] = None.
Proof. reflexivity. Qed.

(** Successive decoding of concatenated encodings gives the blocks back,
    in order. *)
Lemma DecodeAll_concat (blks : list Block) (n : nat) :
  forallb (fun b => forallb type_char (list_byte_of_string (blk_Type b))) blks = true ->
  (length blks <= n)%nat ->
  DecodeAll n (concat (map EncodeToMemory blks)) = blks.
Proof.
  revert n. induction blks as [|b blks IH]; intros n Hok Hn.
  - destruct n; reflexivity.
  - destruct n as [|n]; [simpl in Hn; lia|].
    simpl in Hok. apply andb_prop in Hok as [Hb Hbs].
    cbn [map concat DecodeAll]. rewrite Decode_EncodeToMemory by exact Hb.
    rewrite IH by (simpl in Hn; first [exact Hbs | lia]). reflexivity.
Qed.

(** ** The loops of [pem.Decode] never run out of rounds *)

Lemma split_nl_length (l a r : bytes) :
  split_nl l = (a, Some r) -> (length r < length l)%nat.
Proof.
  revert a. induction l as [|c l IH]; intros a H; [discriminate|].
  simpl in H. destruct (Byte.eqb c nl).
  - injection H as _ <-. simpl. lia.
  - destruct (split_nl l) as [a' r'] eqn:E. injection H as _ ->.
    specialize (IH a' eq_refl). simpl. lia.
Qed.

Lemma getLine_length (l : bytes) :
  l <> [] -> (length (snd (getLine l)) < length l)%nat.
Proof.
  intros Hne. unfold getLine. destruct (split_nl l) as [a [r|]] eqn:E.
  - apply split_nl_length in E. exact E.
  - simpl. destruct l; [contradiction | simpl; lia].
Qed.

Lemma getLine_length_le (l : bytes) : (length (snd (getLine l)) <= length l)%nat.
Proof.
  destruct l as [|c l]; [reflexivity|].
  pose proof (getLine_length (c :: l) ltac:(discriminate)). lia.
Qed.

Lemma headers_length (n : nat) (rest : bytes) (seen : bool) (r : bytes) (s : bool) :
  headers n rest seen = Some (r, s) -> (length r <= length rest)%nat.
Proof.
  revert rest seen. induction n as [|n IH]; intros rest seen H; [discriminate|].
  cbn [headers] in H. destruct rest as [|b l]; [discriminate|].
  pose proof (getLine_length (b :: l) ltac:(discriminate)) as Hl.
  destruct (getLine (b :: l)) as [line next].
  destruct (cut colon [] line).
  - apply IH in H. simpl in Hl. simpl. lia.
  - injection H as <- _. reflexivity.
Qed.

(** The header loop gives the same with any number of rounds above the
    length of its input. *)
Lemma headers_fuel (n m : nat) (rest : bytes) (seen : bool) :
  (length rest < n)%nat -> (length rest < m)%nat ->
  headers n rest seen = headers m rest seen.
Proof.
  revert m rest seen. induction n as [|n IH]; intros m rest seen Hn Hm; [lia|].
  destruct m as [|m]; [lia|]. cbn [headers].
  destruct rest as [|b l]; [reflexivity|].
  pose proof (getLine_length (b :: l) ltac:(discriminate)) as Hl.
  destruct (getLine (b :: l)) as [line next].
  destruct (cut colon [] line); [|reflexivity].
  simpl in Hl, Hn, Hm. apply IH; lia.
Qed.

Lemma cut_after_length (pat l r : bytes) :
  pat <> [] -> cut_after pat l = Some r -> (length r < length l)%nat.
Proof.
  intros Hp. induction l as [|c l IH]; intros H.
  - rewrite cut_after_unfold in H. destruct pat; [contradiction|discriminate].
  - rewrite cut_after_unfold in H. destruct (has_prefix pat (c :: l)) eqn:E.
    + injection H as <-. apply has_prefix_length in E.
      rewrite length_drop. destruct pat; [contradiction|]. simpl in *. lia.
    + apply IH in H. simpl. lia.
Qed.

(** Each [continue] of [pem.Decode] leaves less input. *)
Lemma decode_round_length (rest r : bytes) :
  decode_round rest = Continue r -> (length r < length rest)%nat.
Proof.
  unfold decode_round. intros H.
  destruct (if has_prefix (drop 1 pemStart) rest
            then Some (drop (length pemStart - 1) rest)
            else cut_after pemStart rest) as [x|] eqn:Eb; [|discriminate].
  assert (Hx : (length x < length rest)%nat).
  { destruct (has_prefix (drop 1 pemStart) rest) eqn:Ep.
    - cbv beta iota in Eb.
      inversion Eb as [Ex].
      apply has_prefix_length in Ep.
      rewrite length_drop.
      simpl in *.
      lia.
    - cbv beta iota in Eb. apply (cut_after_length pemStart); [unfold pemStart; discriminate | exact Eb]. }
  pose proof (getLine_length_le x) as Hg.
  destruct (getLine x) as [typeLine r1]. simpl in Hg.
  destruct (negb (has_suffix pemEndOfLine typeLine)).
  { injection H as <-. lia. }
  destruct (headers (S (length r1)) r1 false) as [[r2 seen]|] eqn:Eh; [|discriminate].
  apply headers_length in Eh.
  repeat match type of H with
         | context [match ?x with _ => _ end] => destruct x
         end;
    try discriminate; injection H as <-; lia.
Qed.

(** The loop gives the same with any number of rounds above the length of
    its input: [Decode] runs it to its end. *)
Lemma decode_loop_fuel (n m : nat) (rest : bytes) :
  (length rest < n)%nat -> (length rest < m)%nat ->
  decode_loop n rest = decode_loop m rest.
Proof.
  revert m rest. induction n as [|n IH]; intros m rest Hn Hm; [lia|].
  destruct m as [|m]; [lia|]. cbn [decode_loop].
  destruct (decode_round rest) as [r|r] eqn:E; [reflexivity|].
  apply decode_round_length in E. apply IH; lia.
Qed.

End PemFacts.

(** ** Running [Sign] *)
Module SignFacts.

Ltac unfold_monad :=
  cbv [bind call check ret fail_with may_panic go_panic from_lib is_ok].

Ltac split_matches :=
  repeat match goal with
  | H : context [match ?x with _ => _ end] |- _ => destruct x eqn:?
  | |- context [match ?x with _ => _ end] => destruct x eqn:?
  end.

Lemma subject_common_name_frame (vp : Policy) (csr : CertificateRequest)
    (req r : Request) :
  subject_common_name vp csr req = Ok r ->
  req_SAN r = req_SAN req /\ req_CSR r = req_CSR req.
Proof.
  unfold subject_common_name. intros H. split_matches; inversion H; subst;
    try discriminate; repeat match goal with H : Ok _ = Ok _ |- _ => inversion H; subst; clear H end;
    auto.
Qed.

Lemma subject_serial_number_frame (vp : Policy) (csr : CertificateRequest)
    (req r : Request) :
  subject_serial_number vp csr req = Ok r ->
  req_SAN r = req_SAN req /\ req_CSR r = req_CSR req
  /\ dn_CommonName (req_Subject r) = dn_CommonName (req_Subject req).
Proof.
  unfold subject_serial_number. intros H. split_matches; inversion H; subst;
    try discriminate; repeat match goal with H : Ok _ = Ok _ |- _ => inversion H; subst; clear H end;
    auto.
Qed.

Lemma populate_ip_addresses_frame (vp : Policy) (csr : CertificateRequest)
    (req : Request) :
  let r := populate_ip_addresses vp csr req in
  san_DNSNames (req_SAN r) = san_DNSNames (req_SAN req)
  /\ req_Subject r = req_Subject req.
Proof.
  unfold populate_ip_addresses. split_matches; auto.
Qed.

Lemma select_hash_frame (vp : Policy) (req r : Request) :
  select_hash vp req = Returned r ->
  req_SAN r = req_SAN req /\ req_Subject r = req_Subject req.
Proof.
  unfold select_hash. intros H. split_matches; inversion H; subst; auto.
Qed.

Ltac sign_red H :=
  cbn -[subject_common_name subject_serial_number populate_dns_names
        populate_ip_addresses check_san_counts check_key_type check_key_format
        select_hash Pem.EncodeToMemory encode_chain init_request] in H.

(** Case on the next call or check of [Sign] that [H] is stuck on. *)
Ltac sign_step H :=
  match type of H with
  | context [NewClient ?L ?c] => destruct (NewClient L c) eqn:?
  | context [parseCSR ?L ?b] => destruct (parseCSR L b) eqn:?
  | context [Client_Policy ?L ?c] => destruct (Client_Policy L c) eqn:?
  | context [subject_common_name ?a ?b ?c] =>
      destruct (subject_common_name a b c) eqn:?
  | context [subject_serial_number ?a ?b ?c] =>
      destruct (subject_serial_number a b c) eqn:?
  | context [check_san_counts ?a ?b] => destruct (check_san_counts a b) eqn:?
  | context [check_key_type ?a ?b] => destruct (check_key_type a b) eqn:?
  | context [check_key_format ?a] => destruct (check_key_format a) eqn:?
  | context [select_hash ?a ?b] => destruct (select_hash a b) eqn:?
  | context [Client_CertificateRequest ?L ?c ?r] =>
      destruct (Client_CertificateRequest L c r) eqn:?
  | context [Client_CertificateRetrieve ?L ?c ?r] =>
      destruct (Client_CertificateRetrieve L c r) eqn:?
  | context [Client_TrustChain ?L ?c] => destruct (Client_TrustChain L c) eqn:?
  end; sign_red H.

Ltac run_sign H :=
  unfold Sign, Sign_body in H; unfold_monad; sign_red H; repeat sign_step H;
  repeat match goal with u : unit |- _ => destruct u end.

(** The path to the submission of a request. *)
Lemma Sign_submits (L : Lib) (o : hvcaSigner) (now : Z) (csrBytes : bytes)
    (req : Request) (ok : bool) :
  In (ev_CertificateRequest req ok) (fst (Sign L o now csrBytes)) ->
  exists clnt csr vp r1 r2,
    NewClient L (config o) = LOk clnt
    /\ parseCSR L csrBytes = LOk csr
    /\ Client_Policy L clnt = LOk vp
    /\ subject_common_name vp csr (init_request csr now) = Ok r1
    /\ subject_serial_number vp csr r1 = Ok r2
    /\ check_san_counts vp
         (populate_ip_addresses vp csr (populate_dns_names vp csr r2)) = Ok tt
    /\ check_key_type vp csr = Ok tt
    /\ check_key_format vp = Ok tt
    /\ select_hash vp
         (populate_ip_addresses vp csr (populate_dns_names vp csr r2))
       = Returned req.
Proof.
  intros H. run_sign H;
    repeat match goal with
    | H : _ \/ _ |- _ => destruct H as [H|H]
    | H : False |- _ => destruct H
    | H : ev_CertificateRequest _ _ = ev_CertificateRequest _ _ |- _ =>
        injection H as <- <-
    | H : _ = _ |- _ => discriminate H
    end;
    do 5 eexists; repeat split; eassumption.
Qed.

Lemma submitted_In (tr : list event) (req : Request) :
  In req (submitted tr) -> exists ok, In (ev_CertificateRequest req ok) tr.
Proof.
  induction tr as [|e tr IH]; simpl; [tauto|].
  destruct e; simpl; intros H;
    try (destruct IH as [ok' Hok]; [exact H|]; exists ok'; right; exact Hok).
  destruct H as [<-|H].
  - eexists. left. reflexivity.
  - destruct IH as [ok' Hok]; [exact H|]. exists ok'. right. exact Hok.
Qed.

Lemma init_then_subject (vp : Policy) (csr : CertificateRequest) (now : Z)
    (r1 r2 : Request) :
  subject_common_name vp csr (init_request csr now) = Ok r1 ->
  subject_serial_number vp csr r1 = Ok r2 ->
  san_DNSNames (req_SAN r2) = [] /\ san_IPAddresses (req_SAN r2) = []
  /\ req_CSR r2 = csr /\ dn_CommonName (req_Subject r2) = dn_CommonName (req_Subject r1).
Proof.
  intros H1 H2.
  destruct (subject_common_name_frame _ _ _ _ H1) as [S1 C1].
  destruct (subject_serial_number_frame _ _ _ _ H2) as [S2 [C2 N2]].
  rewrite S2, S1, C2, C1. auto.
Qed.

Lemma subject_common_name_err (vp : Policy) (csr : CertificateRequest)
    (req : Request) (e : error) :
  subject_common_name vp csr req = Err e -> e = err_cn_required.
Proof. unfold subject_common_name. intros H. split_matches; congruence. Qed.

Lemma subject_serial_number_err (vp : Policy) (csr : CertificateRequest)
    (req : Request) (e : error) :
  subject_serial_number vp csr req = Err e -> e = err_sn_required.
Proof. unfold subject_serial_number. intros H. split_matches; congruence. Qed.

Lemma check_san_counts_err (vp : Policy) (req : Request) (e : error) :
  check_san_counts vp req = Err e -> e = err_sans_missing /\ sans_missing vp req = true.
Proof. unfold check_san_counts. intros H. split_matches; split; congruence. Qed.

Lemma check_key_type_err (vp : Policy) (csr : CertificateRequest) (e : error) :
  check_key_type vp csr = Err e ->
  e = err_key_mismatch (PublicKeyAlgorithm_String (csr_PublicKeyAlgorithm csr))
                       (KeyType_String (PublicKey_KeyType vp)).
Proof. unfold check_key_type. intros H. split_matches; congruence. Qed.

Lemma check_key_format_err (vp : Policy) (e : error) :
  check_key_format vp = Err e -> e = err_key_format.
Proof. unfold check_key_format. intros H. split_matches; congruence. Qed.

(** Replace the error of each failed check by the one it builds. *)
Ltac stage_errors :=
  repeat match goal with
  | E : subject_common_name _ _ _ = Err _ |- _ => apply subject_common_name_err in E; subst
  | E : subject_serial_number _ _ _ = Err _ |- _ => apply subject_serial_number_err in E; subst
  | E : check_san_counts _ _ = Err _ |- _ =>
      apply check_san_counts_err in E; destruct E as [? ?]; subst
  | E : check_key_type _ _ = Err _ |- _ => apply check_key_type_err in E; subst
  | E : check_key_format _ = Err _ |- _ => apply check_key_format_err in E; subst
  end.

(** [Sign] returns the missing-SANs error exactly when it gets to the
    SAN-count check and the check fails on the populated request. *)
Lemma Sign_sans_missing (L : Lib) (o : hvcaSigner) (now : Z) (csrBytes : bytes) :
  snd (Sign L o now csrBytes) = Returned (None, None, Some err_sans_missing) <->
  exists clnt csr vp r1 r2,
    NewClient L (config o) = LOk clnt
    /\ parseCSR L csrBytes = LOk csr
    /\ Client_Policy L clnt = LOk vp
    /\ subject_common_name vp csr (init_request csr now) = Ok r1
    /\ subject_serial_number vp csr r1 = Ok r2
    /\ sans_missing vp
         (populate_ip_addresses vp csr (populate_dns_names vp csr r2)) = true.
Proof.
  split.
  - intros H. run_sign H; stage_errors;
      try (injection H; clear H; intros H; cbn in H; discriminate H);
      try discriminate H.
    do 5 eexists. repeat split; eassumption.
  - intros (clnt & csr & vp & r1 & r2 & Hc & Hp & Hv & H1 & H2 & Hm).
    unfold Sign, Sign_body. unfold_monad. rewrite Hc. cbn. rewrite Hp. cbn.
    rewrite Hv. cbn. rewrite H1. cbn. rewrite H2. cbn.
    unfold check_san_counts. rewrite Hm. reflexivity.
Qed.

End SignFacts.

(** ** Claims *)
Module Claims.
Import SignFacts.

Lemma populate_dns_names_subject (vp : Policy) (csr : CertificateRequest)
    (req : Request) :
  req_Subject (populate_dns_names vp csr req) = req_Subject req.
Proof. unfold populate_dns_names. split_matches; reflexivity. Qed.

(** The DNS-name SAN population of lines 122-130, on a request whose
    SAN list is still empty and whose common name is set. *)
Lemma populate_dns_names_cases (vp : Policy) (csr : CertificateRequest)
    (req : Request) :
  Static (SAN_DNSNames vp) = false -> 0 < MaxCount (SAN_DNSNames vp) ->
  req_CSR req = csr -> san_DNSNames (req_SAN req) = [] ->
  dn_CommonName (req_Subject req) <> ""%string ->
  let r := populate_dns_names vp csr req in
  req_Subject r = req_Subject req
  /\ (Z.of_nat (length (csr_DNSNames csr)) < MaxCount (SAN_DNSNames vp) ->
      san_DNSNames (req_SAN r) = csr_DNSNames csr ++ [dn_CommonName (req_Subject req)])
  /\ (MaxCount (SAN_DNSNames vp) <= Z.of_nat (length (csr_DNSNames csr)) ->
      san_DNSNames (req_SAN r) = []).
Proof.
  intros Hs Hm Hc Hd Hn r. subst r csr. unfold populate_dns_names.
  rewrite Hs. cbn [negb andb]. rewrite (proj2 (Z.ltb_lt _ _) Hm).
  apply String.eqb_neq in Hn.
  destruct (Z.of_nat (length (csr_DNSNames (req_CSR req)))
              <? MaxCount (SAN_DNSNames vp)) eqn:Hlt.
  - apply Z.ltb_lt in Hlt. cbn. rewrite Hn. cbn.
    rewrite (proj2 (Z.ltb_lt _ _) Hlt). cbn. rewrite Hd.
    repeat split; intros; try reflexivity; lia.
  - apply Z.ltb_ge in Hlt. rewrite Hn. cbn.
    rewrite (proj2 (Z.ltb_ge _ _) Hlt). cbn.
    repeat split; intros; try assumption; lia.
Qed.

(** C1 (as amended): for a fetched policy whose DNS-name SANs are not
    static and have a positive maximum, every request [Sign] submits with
    a common name in its subject has as DNS-name SANs the CSR's DNS names
    followed by the common name when [count + 1 <= max], and no DNS-name
    SAN at all when [count + 1 > max]: neither the CSR's names nor the
    common name are copied then. *)
Theorem dns_san_backfill (L : Lib) (o : hvcaSigner) (now : Z) (csrBytes : bytes)
    (clnt : Client) (csr : CertificateRequest) (vp : Policy) (req : Request) :
  NewClient L (config o) = LOk clnt ->
  parseCSR L csrBytes = LOk csr ->
  Client_Policy L clnt = LOk vp ->
  Static (SAN_DNSNames vp) = false ->
  0 < MaxCount (SAN_DNSNames vp) ->
  In req (submitted (fst (Sign L o now csrBytes))) ->
  dn_CommonName (req_Subject req) <> ""%string ->
  (Z.of_nat (length (csr_DNSNames csr)) + 1 <= MaxCount (SAN_DNSNames vp) ->
   san_DNSNames (req_SAN req) = csr_DNSNames csr ++ [dn_CommonName (req_Subject req)])
  /\ (MaxCount (SAN_DNSNames vp) < Z.of_nat (length (csr_DNSNames csr)) + 1 ->
      san_DNSNames (req_SAN req) = []).
Proof.
  intros Hc Hp Hv Hs Hm Hin Hn.
  apply submitted_In in Hin as [ok Hin].
  destruct (Sign_submits _ _ _ _ _ _ Hin)
    as (clnt' & csr' & vp' & r1 & r2 & Hc' & Hp' & Hv' & H1 & H2 & _ & _ & _ & Hh).
  rewrite Hc in Hc'. injection Hc' as <-.
  rewrite Hp in Hp'. injection Hp' as <-.
  rewrite Hv in Hv'. injection Hv' as <-.
  destruct (init_then_subject _ _ _ _ _ H1 H2) as (D2 & _ & C2 & _).
  destruct (select_hash_frame _ _ _ Hh) as [Ssan Ssub].
  destruct (populate_ip_addresses_frame vp csr (populate_dns_names vp csr r2))
    as [Ipd Ips].
  rewrite Ssub, Ips in Hn |- *. rewrite Ssan, Ipd.
  rewrite populate_dns_names_subject in Hn |- *.
  destruct (populate_dns_names_cases vp csr r2 Hs Hm C2 D2 Hn) as (_ & Lt & Ge).
  split; intros; [apply Lt | apply Ge]; lia.
Qed.

Ltac the_submitted L :=
  let t := eval vm_compute in (submitted (fst (Sign L sample_signer 0 []))) in
  match t with [?r] => exists r end.

Lemma dns_san_backfill_witness :
  exists req, In req (submitted (fst (Sign (dns_lib 3) sample_signer 0 [])))
    /\ san_DNSNames (req_SAN req) = ["www.example.com"; "example.com"]%string.
Proof.
  the_submitted (dns_lib 3).
  assert (Hin : In _ (submitted (fst (Sign (dns_lib 3) sample_signer 0 []))))
    by (vm_compute; left; reflexivity).
  split; [exact Hin|].
  apply (proj1 (dns_san_backfill (dns_lib 3) sample_signer 0 [] sample_client
                  dns_csr (dns_policy 0 3) _ eq_refl eq_refl eq_refl eq_refl
                  ltac:(vm_compute; reflexivity) Hin ltac:(vm_compute; discriminate))).
  vm_compute. discriminate.
Defined.

(** C1 as stated fails: with one DNS name in the CSR and a maximum of 1,
    the conditions hold (not static, positive maximum, common name
    carried, [1 + 1 > 1]), yet the submitted request has no DNS-name SAN
    instead of exactly the CSR's names. *)
Lemma dns_san_no_room_counterexample :
  Static (SAN_DNSNames (dns_policy 0 1)) = false
  /\ 0 < MaxCount (SAN_DNSNames (dns_policy 0 1))
  /\ MaxCount (SAN_DNSNames (dns_policy 0 1)) < Z.of_nat (length (csr_DNSNames dns_csr)) + 1
  /\ (exists req, In req (submitted (fst (Sign (dns_lib 1) sample_signer 0 [])))
        /\ dn_CommonName (req_Subject req) = "example.com"%string
        /\ san_DNSNames (req_SAN req) = []
        /\ san_DNSNames (req_SAN req) <> csr_DNSNames dns_csr).
Proof.
  split; [reflexivity|]. split; [vm_compute; reflexivity|].
  split; [vm_compute; reflexivity|].
  the_submitted (dns_lib 1).
  split; [vm_compute; left; reflexivity|].
  split; [reflexivity|]. split; [reflexivity|].
  vm_compute. discriminate.
Qed.

Ltac fact := first [eassumption | reflexivity].

(** C2: on every error exit of [Sign] both byte outputs are nil, and the
    run stopped at the failing step: the trace is exactly the remote calls
    made up to that step, each successful but a failing call itself, and
    the error is that step's. The exits are client creation (line 77),
    the CSR parse (81), the policy fetch (94), a policy check (lines
    100-148: no call after the policy fetch, and the error is one of the
    package's own), the submission (154), and the retrieval of the
    certificate (158) and of the chain (162). *)
Theorem Sign_error_exit (L : Lib) (o : hvcaSigner) (now : Z) (csrBytes : bytes)
    (tr : list event) (leaf chain : option bytes) (e : error) :
  Sign L o now csrBytes = (tr, Returned (leaf, chain, Some e)) ->
  leaf = None /\ chain = None /\
  ((tr = [ev_NewClient false]
    /\ exists m, NewClient L (config o) = LErr m /\ e = lib_error m)
   \/ (tr = [ev_NewClient true]
       /\ exists m, parseCSR L csrBytes = LErr m /\ e = lib_error m)
   \/ (tr = [ev_NewClient true; ev_Policy false]
       /\ exists clnt m, NewClient L (config o) = LOk clnt
          /\ Client_Policy L clnt = LErr m /\ e = lib_error m)
   \/ (tr = [ev_NewClient true; ev_Policy true]
       /\ exists m, e = errors_New m)
   \/ (exists clnt req m,
         tr = [ev_NewClient true; ev_Policy true; ev_CertificateRequest req false]
         /\ NewClient L (config o) = LOk clnt
         /\ Client_CertificateRequest L clnt req = LErr m /\ e = lib_error m)
   \/ (exists clnt req serial m,
         tr = [ev_NewClient true; ev_Policy true; ev_CertificateRequest req true;
                 ev_CertificateRetrieve serial false]
         /\ NewClient L (config o) = LOk clnt
         /\ Client_CertificateRequest L clnt req = LOk serial
         /\ Client_CertificateRetrieve L clnt serial = LErr m /\ e = lib_error m)
   \/ (exists clnt req serial m,
         tr = [ev_NewClient true; ev_Policy true; ev_CertificateRequest req true;
                 ev_CertificateRetrieve serial true; ev_TrustChain false]
         /\ NewClient L (config o) = LOk clnt
         /\ Client_TrustChain L clnt = LErr m /\ e = lib_error m)).
Proof.
  intros H. run_sign H; injection H; intros; subst; try discriminate;
    stage_errors; (split; [reflexivity|split; [reflexivity|]]);
    first
    [ left; split; [reflexivity|]; eexists; split; [fact|reflexivity]
    | right; left; split; [reflexivity|]; eexists; split; [fact|reflexivity]
    | do 2 right; left; split; [reflexivity|];
      do 2 eexists; split; [fact|split; [fact|reflexivity]]
    | do 3 right; left; split; [reflexivity|]; eexists; reflexivity
    | do 4 right; left; do 3 eexists;
      split; [reflexivity|split; [fact|split; [fact|reflexivity]]]
    | do 5 right; left; do 4 eexists;
      split; [reflexivity|split; [fact|split; [fact|
        split; [fact|reflexivity]]]]
    | do 6 right; do 4 eexists;
      split; [reflexivity|split; [fact|split; [fact|reflexivity]]] ].
Qed.

Lemma Sign_error_exit_witness :
  None = @None bytes /\ None = @None bytes /\
  (([ev_NewClient true; ev_Policy true] = [ev_NewClient false]
    /\ exists m, NewClient (sample_lib sample_policy (sample_csr "" []) [x05] []) (config sample_signer) = LErr m /\ err_cn_required = lib_error m)
   \/ ([ev_NewClient true; ev_Policy true] = [ev_NewClient true]
       /\ exists m, parseCSR (sample_lib sample_policy (sample_csr "" []) [x05] []) [] = LErr m /\ err_cn_required = lib_error m)
   \/ ([ev_NewClient true; ev_Policy true] = [ev_NewClient true; ev_Policy false]
       /\ exists clnt m, NewClient (sample_lib sample_policy (sample_csr "" []) [x05] []) (config sample_signer) = LOk clnt
          /\ Client_Policy (sample_lib sample_policy (sample_csr "" []) [x05] []) clnt = LErr m /\ err_cn_required = lib_error m)
   \/ ([ev_NewClient true; ev_Policy true] = [ev_NewClient true; ev_Policy true]
       /\ exists m, err_cn_required = errors_New m)
   \/ (exists clnt req m,
         [ev_NewClient true; ev_Policy true] = [ev_NewClient true; ev_Policy true; ev_CertificateRequest req false]
         /\ NewClient (sample_lib sample_policy (sample_csr "" []) [x05] []) (config sample_signer) = LOk clnt
         /\ Client_CertificateRequest (sample_lib sample_policy (sample_csr "" []) [x05] []) clnt req = LErr m /\ err_cn_required = lib_error m)
   \/ (exists clnt req serial m,
         [ev_NewClient true; ev_Policy true] = [ev_NewClient true; ev_Policy true; ev_CertificateRequest req true;
                 ev_CertificateRetrieve serial false]
         /\ NewClient (sample_lib sample_policy (sample_csr "" []) [x05] []) (config sample_signer) = LOk clnt
         /\ Client_CertificateRequest (sample_lib sample_policy (sample_csr "" []) [x05] []) clnt req = LOk serial
         /\ Client_CertificateRetrieve (sample_lib sample_policy (sample_csr "" []) [x05] []) clnt serial = LErr m /\ err_cn_required = lib_error m)
   \/ (exists clnt req serial m,
         [ev_NewClient true; ev_Policy true] = [ev_NewClient true; ev_Policy true; ev_CertificateRequest req true;
                 ev_CertificateRetrieve serial true; ev_TrustChain false]
         /\ NewClient (sample_lib sample_policy (sample_csr "" []) [x05] []) (config sample_signer) = LOk clnt
         /\ Client_TrustChain (sample_lib sample_policy (sample_csr "" []) [x05] []) clnt = LErr m /\ err_cn_required = lib_error m)).
Proof.
  apply (Sign_error_exit (sample_lib sample_policy (sample_csr "" []) [x05] [])
           sample_signer 0 [] [ev_NewClient true; ev_Policy true] None None
           err_cn_required).
  vm_compute. reflexivity.
Defined.

(** C3: the SAN-count check of [Sign] compares the policy's minimums
    with the counts of the request after the direct copy and the
    common-name backfill: [Sign] fails with the missing-SANs error exactly
    when one of those counts is below its minimum; and a CSR with no DNS
    name whose backfilled common name meets the DNS minimum passes. *)
Theorem san_minimum_after_backfill (L : Lib) (o : hvcaSigner) (now : Z)
    (csrBytes : bytes) (clnt : Client) (csr : CertificateRequest) (vp : Policy)
    (r1 r2 : Request) :
  NewClient L (config o) = LOk clnt ->
  parseCSR L csrBytes = LOk csr ->
  Client_Policy L clnt = LOk vp ->
  subject_common_name vp csr (init_request csr now) = Ok r1 ->
  subject_serial_number vp csr r1 = Ok r2 ->
  let req := populate_ip_addresses vp csr (populate_dns_names vp csr r2) in
  (snd (Sign L o now csrBytes) = Returned (None, None, Some err_sans_missing) <->
   Z.of_nat (length (san_DNSNames (req_SAN req))) < MinCount (SAN_DNSNames vp)
   \/ Z.of_nat (length (san_IPAddresses (req_SAN req))) < MinCount (SAN_IPAddresses vp))
  /\ (csr_DNSNames csr = [] ->
      dn_CommonName (req_Subject r2) <> ""%string ->
      Static (SAN_DNSNames vp) = false ->
      0 < MaxCount (SAN_DNSNames vp) ->
      MinCount (SAN_DNSNames vp) <= 1 ->
      MinCount (SAN_IPAddresses vp) <= Z.of_nat (length (san_IPAddresses (req_SAN req))) ->
      snd (Sign L o now csrBytes) <> Returned (None, None, Some err_sans_missing)).
Proof.
  intros Hc Hp Hv H1 H2 req.
  assert (Iff : snd (Sign L o now csrBytes) = Returned (None, None, Some err_sans_missing) <->
     Z.of_nat (length (san_DNSNames (req_SAN req))) < MinCount (SAN_DNSNames vp)
     \/ Z.of_nat (length (san_IPAddresses (req_SAN req))) < MinCount (SAN_IPAddresses vp)).
  { rewrite Sign_sans_missing. split.
    - intros (clnt' & csr' & vp' & r1' & r2' & Hc' & Hp' & Hv' & H1' & H2' & Hm).
      rewrite Hc in Hc'. injection Hc' as <-.
      rewrite Hp in Hp'. injection Hp' as <-.
      rewrite Hv in Hv'. injection Hv' as <-.
      rewrite H1 in H1'. injection H1' as <-.
      rewrite H2 in H2'. injection H2' as <-.
      unfold sans_missing in Hm. apply orb_true_iff in Hm.
      destruct Hm as [Hm|Hm]; apply Z.ltb_lt in Hm; auto.
    - intros Hm. exists clnt, csr, vp, r1, r2. repeat split; try assumption.
      unfold sans_missing. apply orb_true_iff.
      destruct Hm as [Hm|Hm]; [left|right]; apply Z.ltb_lt; exact Hm. }
  split; [exact Iff|].
  intros Hnil Hn Hs Hmax Hmin Hip Hfail.
  apply Iff in Hfail.
  destruct (init_then_subject _ _ _ _ _ H1 H2) as (D2 & _ & C2 & _).
  destruct (populate_dns_names_cases vp csr r2 Hs Hmax C2 D2 Hn) as (_ & Lt & _).
  destruct (populate_ip_addresses_frame vp csr (populate_dns_names vp csr r2)) as [Ipd _].
  subst req. rewrite Ipd, Lt in Hfail by (rewrite Hnil; cbn; lia).
  rewrite Hnil in Hfail. cbn in Hfail. lia.
Qed.

Ltac ok_value t :=
  let v := eval vm_compute in t in
  match v with Ok ?r => exact r end.

Lemma san_minimum_after_backfill_witness :
  csr_DNSNames backfill_csr = []
  /\ MinCount (SAN_DNSNames (dns_policy 1 3)) = 1
  /\ snd (Sign backfill_lib sample_signer 0 []) <> Returned (None, None, Some err_sans_missing).
Proof.
  split; [reflexivity|]. split; [reflexivity|].
  pose (r1 := ltac:(ok_value (subject_common_name (dns_policy 1 3) backfill_csr
                                (init_request backfill_csr 0)))).
  pose (r2 := ltac:(ok_value (subject_serial_number (dns_policy 1 3) backfill_csr r1))).
  apply (proj2 (san_minimum_after_backfill backfill_lib sample_signer 0 [] sample_client
                  backfill_csr (dns_policy 1 3) r1 r2 eq_refl eq_refl eq_refl
                  ltac:(vm_compute; reflexivity) ltac:(vm_compute; reflexivity)));
    vm_compute; first [reflexivity | discriminate | intros; discriminate].
Defined.

Lemma string_app_nil_r (s : string) : (s ++ "")%string = s.
Proof. induction s as [|c s IH]; [reflexivity|exact (f_equal (String c) IH)]. Qed.

Lemma string_app_assoc (a b c : string) : (a ++ b ++ c)%string = ((a ++ b) ++ c)%string.
Proof. induction a as [|x a IH]; [reflexivity|exact (f_equal (String x) IH)]. Qed.

(** C6: when the fetched policy requires the common name and the CSR's
    subject has none, [Sign] returns nil, nil and a validation error whose
    message names the common name, after the client creation and the
    policy fetch only: no certificate request is submitted. *)
Theorem cn_required_missing (L : Lib) (o : hvcaSigner) (now : Z) (csrBytes : bytes)
    (clnt : Client) (csr : CertificateRequest) (vp : Policy) :
  NewClient L (config o) = LOk clnt ->
  parseCSR L csrBytes = LOk csr ->
  Client_Policy L clnt = LOk vp ->
  SubjectDN_CommonName_Presence vp = Required ->
  CommonName (csr_Subject csr) = ""%string ->
  Sign L o now csrBytes
    = ([ev_NewClient true; ev_Policy true], Returned (None, None, Some err_cn_required))
  /\ submitted (fst (Sign L o now csrBytes)) = []
  /\ exists m, err_cn_required = errors_New m /\ contains "subject common name" m.
Proof.
  intros Hc Hp Hv Hr Hcn.
  assert (HS : Sign L o now csrBytes
    = ([ev_NewClient true; ev_Policy true], Returned (None, None, Some err_cn_required))).
  { unfold Sign, Sign_body. unfold_monad. rewrite Hc. cbn. rewrite Hp. cbn.
    rewrite Hv. cbn. unfold subject_common_name. rewrite Hr, Hcn, Z.eqb_refl.
    reflexivity. }
  split; [exact HS|]. split; [rewrite HS; reflexivity|].
  eexists. split; [reflexivity|].
  exists "atlas validation policy requires "%string,
         ", but CSR did not contain one"%string.
  reflexivity.
Qed.

Lemma cn_required_missing_witness :
  Sign (sample_lib sample_policy (sample_csr "" []) [x05] []) sample_signer 0 []
    = ([ev_NewClient true; ev_Policy true], Returned (None, None, Some err_cn_required)).
Proof.
  apply (cn_required_missing (sample_lib sample_policy (sample_csr "" []) [x05] [])
           sample_signer 0 [] sample_client (sample_csr "" []) sample_policy);
    reflexivity.
Defined.

(** C7: once [Sign] has passed the SAN-count check, a CSR key algorithm
    whose name differs from the policy's key type makes it fail with a
    validation error whose message contains both names; when the two
    names are equal, [Sign] never ends with the key-mismatch error. *)
Theorem key_type_mismatch (L : Lib) (o : hvcaSigner) (now : Z) (csrBytes : bytes) :
  (forall clnt csr vp r1 r2,
    NewClient L (config o) = LOk clnt ->
    parseCSR L csrBytes = LOk csr ->
    Client_Policy L clnt = LOk vp ->
    subject_common_name vp csr (init_request csr now) = Ok r1 ->
    subject_serial_number vp csr r1 = Ok r2 ->
    check_san_counts vp
      (populate_ip_addresses vp csr (populate_dns_names vp csr r2)) = Ok tt ->
    let mine := PublicKeyAlgorithm_String (csr_PublicKeyAlgorithm csr) in
    let atlas := KeyType_String (PublicKey_KeyType vp) in
    mine <> atlas ->
    exists m, snd (Sign L o now csrBytes) = Returned (None, None, Some (errors_New m))
      /\ contains mine m /\ contains atlas m)
  /\ (forall csr vp a b,
      parseCSR L csrBytes = LOk csr ->
      (forall clnt, NewClient L (config o) = LOk clnt -> Client_Policy L clnt = LOk vp) ->
      PublicKeyAlgorithm_String (csr_PublicKeyAlgorithm csr)
        = KeyType_String (PublicKey_KeyType vp) ->
      snd (Sign L o now csrBytes) <> Returned (None, None, Some (err_key_mismatch a b))).
Proof.
  split.
  - intros clnt csr vp r1 r2 Hc Hp Hv H1 H2 Hs mine atlas Hne.
    exists ("csr public key type doesn't match Atlas account pubic key type: CSR - "
            ++ mine ++ "Atlas - " ++ atlas)%string.
    split; [|split].
    + unfold Sign, Sign_body. unfold_monad. rewrite Hc. cbn. rewrite Hp. cbn.
      rewrite Hv. cbn. rewrite H1. cbn. rewrite H2. cbn. rewrite Hs. cbn.
      unfold check_key_type. fold mine atlas.
      replace (String.eqb atlas mine) with false
        by (symmetry; apply String.eqb_neq; congruence).
      reflexivity.
    + exists "csr public key type doesn't match Atlas account pubic key type: CSR - "%string,
             ("Atlas - " ++ atlas)%string. reflexivity.
    + exists ("csr public key type doesn't match Atlas account pubic key type: CSR - "
              ++ mine ++ "Atlas - ")%string, ""%string.
      rewrite string_app_nil_r, <- !string_app_assoc. reflexivity.
  - intros csr vp a b Hp Hv Heq H.
    run_sign H; try discriminate H;
      repeat match goal with
      | E : LOk ?x = LOk ?y |- _ => injection E as E; subst
      | E : forall c, LOk ?x = LOk c -> _ |- _ => specialize (E x eq_refl)
      | E : Client_Policy ?L ?c = LOk ?x, E1 : Client_Policy ?L ?c = LOk ?y |- _ =>
          rewrite E in E1; injection E1 as E1; subst
      end;
      try match goal with
      | E : check_key_type _ _ = Err _ |- _ =>
          cbv [check_key_type] in E; rewrite Heq, String.eqb_refl in E; discriminate E
      end;
      stage_errors;
      unfold err_key_mismatch, err_key_format, err_cn_required, err_sn_required,
        err_sans_missing in H;
      injection H; intros; discriminate.
Qed.

Lemma key_type_mismatch_witness :
  exists m, snd (Sign ecdsa_lib sample_signer 0 []) = Returned (None, None, Some (errors_New m))
    /\ contains "ECDSA" m /\ contains "RSA" m.
Proof.
  pose (r1 := ltac:(ok_value (subject_common_name sample_policy ecdsa_csr
                                (init_request ecdsa_csr 0)))).
  pose (r2 := ltac:(ok_value (subject_serial_number sample_policy ecdsa_csr r1))).
  apply (proj1 (key_type_mismatch ecdsa_lib sample_signer 0 []) sample_client ecdsa_csr
           sample_policy r1 r2); vm_compute; first [reflexivity | discriminate].
Defined.

(** C4 (a nil PEM block is dereferenced): when the secret's certificate
    bytes hold no PEM block, or they hold a certificate that parses but
    the key bytes hold no PEM block, [pem.Decode] returns a nil block and
    the constructor dereferences it: it panics instead of returning a
    configuration error. *)
Theorem malformed_pem_panics (L : Lib) (spec : IssuerSpec) (secret : gmap string bytes) :
  (pem_block (secret_get secret "cert") = None ->
   HVCASignerFromIssuerAndSecretData L spec secret = Panicked nil_deref)
  /\ (forall cb c,
      pem_block (secret_get secret "cert") = Some cb ->
      ParseCertificate L (Pem.blk_Bytes cb) = LOk c ->
      pem_block (secret_get secret "certkey") = None ->
      HVCASignerFromIssuerAndSecretData L spec secret = Panicked nil_deref).
Proof.
  unfold HVCASignerFromIssuerAndSecretData. cbv zeta. split.
  - intros H. rewrite H. reflexivity.
  - intros cb c H1 H2 H3. rewrite H1, H2, H3. reflexivity.
Qed.

Lemma malformed_pem_panics_witness :
  HVCASignerFromIssuerAndSecretData (sample_lib sample_policy dns_csr [] []) sample_spec
    (sample_secret glued_cert_pem (key_pem "RSA PRIVATE KEY"))
  = Panicked nil_deref.
Proof.
  apply (proj1 (malformed_pem_panics (sample_lib sample_policy dns_csr [] []) sample_spec
           (sample_secret glued_cert_pem (key_pem "RSA PRIVATE KEY")))).
  vm_compute. reflexivity.
Defined.

(** C4 fails on a well-formed certificate with key bytes that are not
    PEM: the constructor panics; it returns no value, so no error. *)
Lemma malformed_pem_counterexample :
  HVCASignerFromIssuerAndSecretData (sample_lib sample_policy dns_csr [] [])
    sample_spec (sample_secret cert_pem (list_byte_of_string "garbage"))
  = Panicked nil_deref.
Proof. vm_compute. reflexivity. Qed.

(** The value inside a computed [Some]. *)
Ltac some_value t :=
  let v := eval vm_compute in t in
  match v with Some ?b => exact b end.

(** C8: once the certificate is read, a key block of type
    ["RSA PRIVATE KEY"] is parsed with the PKCS#1 parser and one of type
    ["PRIVATE KEY"] with the PKCS#8 parser (the outcome is that parser's
    error, or the validated configuration with the parsed key); any other
    type makes the constructor return nil and the error
    ["unable to determine the mTLS private key type"]. *)
Theorem private_key_dispatch (L : Lib) (spec : IssuerSpec) (secret : gmap string bytes)
    (cb : Pem.Block) (c : Certificate) (kb : Pem.Block) :
  pem_block (secret_get secret "cert") = Some cb ->
  ParseCertificate L (Pem.blk_Bytes cb) = LOk c ->
  pem_block (secret_get secret "certkey") = Some kb ->
  let cfg := {| APIKey := string_of_list_byte (secret_get secret "apikey");
                APISecret := string_of_list_byte (secret_get secret "apisecret");
                URL := spec_URL spec; TLSCert := Some c; TLSKey := None |} in
  (Pem.blk_Type kb = "RSA PRIVATE KEY"%string ->
   HVCASignerFromIssuerAndSecretData L spec secret
   = match ParsePKCS1PrivateKey L (Pem.blk_Bytes kb) with
     | LErr m => Returned (None, Some (lib_error m))
     | LOk k => finish_config L (with_key cfg k)
     end)
  /\ (Pem.blk_Type kb = "PRIVATE KEY"%string ->
      HVCASignerFromIssuerAndSecretData L spec secret
      = match ParsePKCS8PrivateKey L (Pem.blk_Bytes kb) with
        | LErr m => Returned (None, Some (lib_error m))
        | LOk k => finish_config L (with_key cfg k)
        end)
  /\ (Pem.blk_Type kb <> "RSA PRIVATE KEY"%string ->
      Pem.blk_Type kb <> "PRIVATE KEY"%string ->
      HVCASignerFromIssuerAndSecretData L spec secret = Returned (None, Some err_key_type)
      /\ err_key_type = errors_New "unable to determine the mTLS private key type").
Proof.
  intros H1 H2 H3 cfg.
  unfold HVCASignerFromIssuerAndSecretData. cbv zeta. rewrite H1, H2, H3.
  split; [|split].
  - intros E. rewrite E. reflexivity.
  - intros E. rewrite E. reflexivity.
  - intros E1 E2. apply String.eqb_neq in E1, E2. rewrite E1, E2. split; reflexivity.
Qed.

Lemma private_key_dispatch_witness :
  HVCASignerFromIssuerAndSecretData (sample_lib sample_policy dns_csr [] []) sample_spec
    (sample_secret cert_pem (crlf (key_pem "RSA PRIVATE KEY")))
  = Returned (Some {| config := Some {| APIKey := "key"; APISecret := "secret";
                                        URL := spec_URL sample_spec;
                                        TLSCert := Some {| Raw := [x01] |};
                                        TLSKey := Some {| key_parser := PKCS1;
                                                          key_der := [x02] |} |} |},
              None).
Proof.
  set (secret := sample_secret cert_pem (crlf (key_pem "RSA PRIVATE KEY"))).
  pose (cb := ltac:(some_value (pem_block (secret_get secret "cert")))).
  pose (kb := ltac:(some_value (pem_block (secret_get secret "certkey")))).
  rewrite (proj1 (private_key_dispatch (sample_lib sample_policy dns_csr [] [])
           sample_spec secret cb {| Raw := [x01] |} kb
           ltac:(vm_compute; reflexivity) ltac:(vm_compute; reflexivity)
           ltac:(vm_compute; reflexivity)) ltac:(vm_compute; reflexivity)).
  vm_compute. reflexivity.
Defined.

(** C10: when the checks before it pass and the policy requires a hash
    algorithm but lists none, [Sign] panics on [List[0]] (an index out of
    range) after the client creation and the policy fetch, instead of
    returning an error; with a non-empty list the selection never panics. *)
Theorem empty_hash_list_panics (L : Lib) (o : hvcaSigner) (now : Z) (csrBytes : bytes)
    (clnt : Client) (csr : CertificateRequest) (vp : Policy) (r1 r2 : Request) :
  NewClient L (config o) = LOk clnt ->
  parseCSR L csrBytes = LOk csr ->
  Client_Policy L clnt = LOk vp ->
  subject_common_name vp csr (init_request csr now) = Ok r1 ->
  subject_serial_number vp csr r1 = Ok r2 ->
  check_san_counts vp
    (populate_ip_addresses vp csr (populate_dns_names vp csr r2)) = Ok tt ->
  check_key_type vp csr = Ok tt ->
  check_key_format vp = Ok tt ->
  (HashAlgorithm_Presence vp = 2 -> HashAlgorithm_List vp = [] ->
   Sign L o now csrBytes
   = ([ev_NewClient true; ev_Policy true], Panicked index_out_of_range))
  /\ (HashAlgorithm_List vp <> [] ->
      forall req, exists req', select_hash vp req = Returned req').
Proof.
  intros Hc Hp Hv H1 H2 Hs Hk Hf. split.
  - intros Hpres Hlist.
    unfold Sign, Sign_body. unfold_monad. rewrite Hc. cbn. rewrite Hp. cbn.
    rewrite Hv. cbn. rewrite H1. cbn. rewrite H2. cbn. rewrite Hs. cbn.
    rewrite Hk. cbn. rewrite Hf. cbn. unfold select_hash. rewrite Hpres, Hlist.
    reflexivity.
  - intros Hne req. unfold select_hash.
    destruct (HashAlgorithm_List vp) as [|h t]; [congruence|].
    destruct (Z.eqb (HashAlgorithm_Presence vp) 2); eexists; reflexivity.
Qed.

Lemma empty_hash_list_panics_witness :
  Sign empty_hash_lib sample_signer 0 []
  = ([ev_NewClient true; ev_Policy true], Panicked index_out_of_range).
Proof.
  pose (csr := sample_csr "example.com" []).
  pose (r1 := ltac:(ok_value (subject_common_name empty_hash_policy csr
                                (init_request csr 0)))).
  pose (r2 := ltac:(ok_value (subject_serial_number empty_hash_policy csr r1))).
  apply (proj1 (empty_hash_list_panics empty_hash_lib sample_signer 0 [] sample_client csr
           empty_hash_policy r1 r2 eq_refl eq_refl eq_refl
           ltac:(vm_compute; reflexivity) ltac:(vm_compute; reflexivity)
           ltac:(vm_compute; reflexivity) ltac:(vm_compute; reflexivity)
           ltac:(vm_compute; reflexivity))); reflexivity.
Defined.

Lemma go_append_default (s : option bytes) (xs : bytes) :
  default [] (go_append s xs) = default [] s ++ xs.
Proof. destruct s, xs; reflexivity. Qed.

(** Lines 167-175 build the concatenation of one PEM block per certificate. *)
Lemma encode_chain_concat (certs : list Certificate) :
  default [] (encode_chain certs)
  = concat (map Pem.EncodeToMemory (map cert_block certs)).
Proof.
  unfold encode_chain.
  assert (G : forall acc, default [] (fold_left (fun caChain c =>
              go_append caChain (Pem.EncodeToMemory (cert_block c))) certs acc)
            = default [] acc ++ concat (map Pem.EncodeToMemory (map cert_block certs))).
  { induction certs as [|c certs IH]; intros acc; cbn [fold_left map concat].
    - rewrite app_nil_r. reflexivity.
    - rewrite IH, go_append_default, app_assoc. reflexivity. }
  rewrite G. reflexivity.
Qed.

Lemma cert_blocks_type (certs : list Certificate) :
  forallb (fun b => forallb PemFacts.type_char (list_byte_of_string (Pem.blk_Type b)))
    (map cert_block certs) = true.
Proof. induction certs as [|c certs IH]; [reflexivity|exact IH]. Qed.

(** C9: when [Sign] succeeds, its leaf output is the PEM encoding of the
    certificate retrieved from the CA and decodes back to one
    ["CERTIFICATE"] block holding exactly that certificate's raw DER
    bytes; its chain output is the concatenation, in the order the CA
    returned them, of one ["CERTIFICATE"] block per chain certificate, and
    decoding it block by block gives back each certificate's raw DER bytes
    in that order. *)
Theorem sign_pem_roundtrip (L : Lib) (o : hvcaSigner) (now : Z) (csrBytes : bytes)
    (tr : list event) (leaf : bytes) (chain : option bytes) :
  Sign L o now csrBytes = (tr, Returned (Some leaf, chain, None)) ->
  exists clnt serial info certs,
    NewClient L (config o) = LOk clnt
    /\ Client_CertificateRetrieve L clnt serial = LOk info
    /\ Client_TrustChain L clnt = LOk certs
    /\ leaf = Pem.EncodeToMemory (cert_block (X509 info))
    /\ Pem.Decode leaf = Some ({| Pem.blk_Type := "CERTIFICATE";
                                  Pem.blk_Bytes := Raw (X509 info) |}, [])
    /\ default [] chain = concat (map Pem.EncodeToMemory (map cert_block certs))
    /\ Pem.DecodeAll (length certs) (default [] chain)
       = map (fun c => {| Pem.blk_Type := "CERTIFICATE"; Pem.blk_Bytes := Raw c |}) certs.
Proof.
  intros H. run_sign H; try discriminate H.
  injection H as _ <- <-.
  do 4 eexists. split; [reflexivity|]. split; [eassumption|]. split; [eassumption|].
  split; [reflexivity|]. split.
  - rewrite <- (app_nil_r (Pem.EncodeToMemory _)).
    apply PemFacts.Decode_EncodeToMemory. reflexivity.
  - rewrite encode_chain_concat. split; [reflexivity|].
    apply PemFacts.DecodeAll_concat; [apply cert_blocks_type|].
    rewrite length_map. lia.
Qed.

Lemma sign_pem_roundtrip_witness :
  exists tr leaf chain,
    Sign chain_lib sample_signer 0 [] = (tr, Returned (Some leaf, chain, None))
    /\ Pem.Decode leaf = Some ({| Pem.blk_Type := "CERTIFICATE"; Pem.blk_Bytes := [x05; x06] |}, [])
    /\ Pem.DecodeAll 2 (default [] chain)
       = [{| Pem.blk_Type := "CERTIFICATE"; Pem.blk_Bytes := [x07; x08; x09] |};
          {| Pem.blk_Type := "CERTIFICATE"; Pem.blk_Bytes := [x0a] |}].
Proof.
  let v := eval vm_compute in (Sign chain_lib sample_signer 0 []) in
  match v with (?tr, Returned (Some ?leaf, ?chain, None)) => exists tr, leaf, chain end.
  assert (E : Sign chain_lib sample_signer 0 [] = (_, Returned (Some _, _, None)))
    by (vm_compute; reflexivity).
  split; [exact E|].
  destruct (sign_pem_roundtrip _ _ _ _ _ _ _ E)
    as (clnt & serial & info & certs & Hc & Hr & Ht & _ & Hd & _ & Ha).
  cbn in Hc, Hr, Ht. injection Hc as <-. injection Hr as <-. injection Ht as <-.
  split; [exact Hd | exact Ha].
Defined.

(** C5 (shared error variable): two goroutines run [Sign] on the same
    signer; [NewClient] succeeds for the first and fails with [e] for the
    second. Interleaved at lines 77-78, the first returns [(nil, nil, e)]
    although its own client was created, while alone it goes on with its
    client. In the other order the failing goroutine reads back the
    success of the other one and goes on with a nil client. *)
Theorem shared_err_race (c : Client) (e : error) :
  Race.run [Race.A; Race.B; Race.A; Race.B]
    {| Race.global_err := None; Race.thread_a := Race.AtNewClient (Ok c);
       Race.thread_b := Race.AtNewClient (Err e) |}
  = {| Race.global_err := Some e; Race.thread_a := Race.Done (None, None, Some e);
       Race.thread_b := Race.Done (None, None, Some e) |}
  /\ Race.run_alone 2 None (Race.AtNewClient (Ok c)) = (None, Race.Continue (Some c))
  /\ Race.run [Race.B; Race.A; Race.B; Race.A]
       {| Race.global_err := None; Race.thread_a := Race.AtNewClient (Ok c);
          Race.thread_b := Race.AtNewClient (Err e) |}
     = {| Race.global_err := None; Race.thread_a := Race.Continue (Some c);
          Race.thread_b := Race.Continue None |}
  /\ Race.run_alone 2 None (Race.AtNewClient (Err e)) = (Some e, Race.Done (None, None, Some e)).
Proof. repeat split. Qed.

End Claims.

(** ** Further properties of the package *)
Module Extras.
Import SignFacts.

Lemma subject_stages (vp : Policy) (csr : CertificateRequest) (now : Z) (r1 r2 : Request) :
  subject_common_name vp csr (init_request csr now) = Ok r1 ->
  subject_serial_number vp csr r1 = Ok r2 ->
  dn_CommonName (req_Subject r2)
    = (if copies_field (SubjectDN_CommonName_Presence vp)
       then CommonName (csr_Subject csr) else "")
  /\ dn_SerialNumber (req_Subject r2)
    = (if copies_field (SubjectDN_SerialNumber_Presence vp)
       then SerialNumber (csr_Subject csr) else "")
  /\ req_CSR r2 = csr
  /\ req_Validity r2 = {| NotBefore := now; NotAfter := 0 |}
  /\ req_Signature r2 = {| HashAlgorithm := "" |}
  /\ req_SAN r2 = {| san_DNSNames := []; san_IPAddresses := [] |}.
Proof.
  unfold subject_common_name, subject_serial_number, copies_field.
  intros H1 H2. split_matches; try discriminate;
    repeat match goal with H : Ok _ = Ok _ |- _ => injection H as <- end;
    repeat match goal with H : Z.eqb _ _ = _ |- _ => rewrite H end;
    cbn; repeat split;
    repeat match goal with
    | H : Z.eqb ?p Required = true, H' : Z.eqb ?p Optional = true |- _ =>
        apply Z.eqb_eq in H; apply Z.eqb_eq in H'; unfold Required, Optional in *; lia
    end.
Qed.

(** Lines 122-130 on a request with no DNS-name SAN yet, built for [csr]. *)
Lemma populate_dns_names_closed (vp : Policy) (csr : CertificateRequest) (req : Request) :
  req_CSR req = csr -> san_DNSNames (req_SAN req) = [] ->
  let r := populate_dns_names vp csr req in
  let p := SAN_DNSNames vp in
  let cn := dn_CommonName (req_Subject req) in
  san_DNSNames (req_SAN r)
    = (if negb (Static p) && (0 <? MaxCount p)
          && (Z.of_nat (length (csr_DNSNames csr)) <? MaxCount p)
       then csr_DNSNames csr ++ (if String.eqb cn "" then [] else [cn])
       else [])
  /\ san_IPAddresses (req_SAN r) = san_IPAddresses (req_SAN req)
  /\ req_Subject r = req_Subject req /\ req_CSR r = req_CSR req
  /\ req_Validity r = req_Validity req /\ req_Signature r = req_Signature req.
Proof.
  intros Hc Hd r p cn. subst r p cn csr. unfold populate_dns_names.
  destruct (negb (Static (SAN_DNSNames vp)) && (0 <? MaxCount (SAN_DNSNames vp)));
    cbn [andb]; [|rewrite Hd; repeat split].
  destruct (Z.of_nat (length (csr_DNSNames (req_CSR req))) <? MaxCount (SAN_DNSNames vp))
    eqn:Hlt; cbn;
    destruct (String.eqb (dn_CommonName (req_Subject req)) "") eqn:Hn; cbn;
    rewrite ?Hlt; cbn; rewrite ?Hd, ?app_nil_r; repeat split.
Qed.

(** Lines 132-136. *)
Lemma populate_ip_addresses_closed (vp : Policy) (csr : CertificateRequest) (req : Request) :
  let r := populate_ip_addresses vp csr req in
  let p := SAN_IPAddresses vp in
  san_IPAddresses (req_SAN r)
    = san_IPAddresses (req_SAN req)
      ++ (if negb (Static p) && (0 <? MaxCount p)
             && (Z.of_nat (length (csr_IPAddresses csr)) <? MaxCount p)
          then csr_IPAddresses csr else [])
  /\ san_DNSNames (req_SAN r) = san_DNSNames (req_SAN req)
  /\ req_Subject r = req_Subject req /\ req_CSR r = req_CSR req
  /\ req_Validity r = req_Validity req /\ req_Signature r = req_Signature req.
Proof.
  intros r p. subst r p. unfold populate_ip_addresses.
  destruct (negb (Static (SAN_IPAddresses vp)) && (0 <? MaxCount (SAN_IPAddresses vp)));
    cbn [andb]; [|rewrite app_nil_r; repeat split].
  destruct (Z.of_nat (length (csr_IPAddresses csr)) <? MaxCount (SAN_IPAddresses vp));
    cbn; rewrite ?app_nil_r; repeat split.
Qed.

(** Lines 150-152, when they do not panic. *)
Lemma select_hash_closed (vp : Policy) (req r : Request) :
  select_hash vp req = Returned r ->
  HashAlgorithm (req_Signature r)
    = (if Z.eqb (HashAlgorithm_Presence vp) 2
       then hd "" (HashAlgorithm_List vp) else HashAlgorithm (req_Signature req))
  /\ (Z.eqb (HashAlgorithm_Presence vp) 2 = true -> HashAlgorithm_List vp <> [])
  /\ req_SAN r = req_SAN req /\ req_Subject r = req_Subject req
  /\ req_CSR r = req_CSR req /\ req_Validity r = req_Validity req.
Proof.
  unfold select_hash. intros H.
  destruct (Z.eqb (HashAlgorithm_Presence vp) 2);
    [destruct (HashAlgorithm_List vp); [discriminate H|]|];
    injection H as <-; repeat split; try discriminate; try reflexivity.
Qed.

(** The request [Sign] submits, built from the stages that led to it. *)
Lemma submitted_request (L : Lib) (o : hvcaSigner) (now : Z) (csrBytes : bytes)
    (req : Request) :
  In req (submitted (fst (Sign L o now csrBytes))) ->
  exists clnt csr vp r1 r2,
    NewClient L (config o) = LOk clnt
    /\ parseCSR L csrBytes = LOk csr
    /\ Client_Policy L clnt = LOk vp
    /\ subject_common_name vp csr (init_request csr now) = Ok r1
    /\ subject_serial_number vp csr r1 = Ok r2
    /\ select_hash vp
         (populate_ip_addresses vp csr (populate_dns_names vp csr r2))
       = Returned req.
Proof.
  intros Hin. apply submitted_In in Hin as [ok Hin].
  destruct (Sign_submits _ _ _ _ _ _ Hin)
    as (clnt & csr & vp & r1 & r2 & Hc & Hp & Hv & H1 & H2 & _ & _ & _ & Hh).
  exists clnt, csr, vp, r1, r2. repeat split; assumption.
Qed.

Lemma submitted_request_fields (L : Lib) (o : hvcaSigner) (now : Z) (csrBytes : bytes)
    (clnt : Client) (csr : CertificateRequest) (vp : Policy) (req : Request) :
  In req (submitted (fst (Sign L o now csrBytes))) ->
  NewClient L (config o) = LOk clnt ->
  parseCSR L csrBytes = LOk csr ->
  Client_Policy L clnt = LOk vp ->
  let pd := SAN_DNSNames vp in
  let pi := SAN_IPAddresses vp in
  let cn := dn_CommonName (req_Subject req) in
  dn_CommonName (req_Subject req)
    = (if copies_field (SubjectDN_CommonName_Presence vp)
       then CommonName (csr_Subject csr) else "")
  /\ dn_SerialNumber (req_Subject req)
    = (if copies_field (SubjectDN_SerialNumber_Presence vp)
       then SerialNumber (csr_Subject csr) else "")
  /\ san_DNSNames (req_SAN req)
    = (if negb (Static pd) && (0 <? MaxCount pd)
          && (Z.of_nat (length (csr_DNSNames csr)) <? MaxCount pd)
       then csr_DNSNames csr ++ (if String.eqb cn "" then [] else [cn])
       else [])
  /\ san_IPAddresses (req_SAN req)
    = (if negb (Static pi) && (0 <? MaxCount pi)
          && (Z.of_nat (length (csr_IPAddresses csr)) <? MaxCount pi)
       then csr_IPAddresses csr else [])
  /\ req_CSR req = csr
  /\ req_Validity req = {| NotBefore := now; NotAfter := 0 |}
  /\ HashAlgorithm (req_Signature req)
    = (if Z.eqb (HashAlgorithm_Presence vp) 2 then hd "" (HashAlgorithm_List vp) else "").
Proof.
  intros Hin Hc Hp Hv pd pi cn. subst pd pi cn.
  destruct (submitted_request _ _ _ _ _ Hin)
    as (clnt' & csr' & vp' & r1 & r2 & Hc' & Hp' & Hv' & H1 & H2 & Hh).
  rewrite Hc in Hc'. injection Hc' as <-.
  rewrite Hp in Hp'. injection Hp' as <-.
  rewrite Hv in Hv'. injection Hv' as <-.
  destruct (subject_stages _ _ _ _ _ H1 H2) as (Cn & Sn & Cs & Va & Sg & Sa).
  assert (D0 : san_DNSNames (req_SAN r2) = []) by (rewrite Sa; reflexivity).
  destruct (populate_dns_names_closed vp csr r2 Cs D0)
    as (Dd & Di & Ds & Dc & Dv & Dg).
  destruct (populate_ip_addresses_closed vp csr (populate_dns_names vp csr r2))
    as (Ii & Id & Is & Ic & Iv & Ig).
  destruct (select_hash_closed _ _ _ Hh) as (Hg & _ & Hs & Hsub & Hcs & Hva).
  rewrite Hs, Hsub, Hcs, Hva, Hg. rewrite Ii, Id, Is, Ic, Iv, Ig.
  rewrite Dd, Di, Ds, Dc, Dv, Dg. rewrite Sa, Sg. cbn [san_IPAddresses HashAlgorithm app].
  repeat split; assumption.
Qed.

(** The one request [Sign] submits on [rich_lib]. *)
Ltac only_submitted L :=
  let t := eval vm_compute in (submitted (fst (Sign L sample_signer 0 []))) in
  match t with [?r] => exists r end.

(** X1: the subject of the request [Sign] submits holds the CSR's common
    name (resp. serial number) when the policy marks that field required
    or optional, and is empty otherwise. *)
Theorem submitted_subject (L : Lib) (o : hvcaSigner) (now : Z) (csrBytes : bytes)
    (clnt : Client) (csr : CertificateRequest) (vp : Policy) (req : Request) :
  In req (submitted (fst (Sign L o now csrBytes))) ->
  NewClient L (config o) = LOk clnt ->
  parseCSR L csrBytes = LOk csr ->
  Client_Policy L clnt = LOk vp ->
  dn_CommonName (req_Subject req)
    = (if copies_field (SubjectDN_CommonName_Presence vp)
       then CommonName (csr_Subject csr) else "")
  /\ dn_SerialNumber (req_Subject req)
    = (if copies_field (SubjectDN_SerialNumber_Presence vp)
       then SerialNumber (csr_Subject csr) else "").
Proof.
  intros Hin Hc Hp Hv.
  destruct (submitted_request_fields L o now csrBytes clnt csr vp req Hin Hc Hp Hv)
    as (Cn & Sn & _). split; assumption.
Qed.

Lemma submitted_subject_witness :
  exists req, In req (submitted (fst (Sign rich_lib sample_signer 0 [])))
    /\ dn_CommonName (req_Subject req) = "example.com"%string
    /\ dn_SerialNumber (req_Subject req) = ""%string.
Proof.
  only_submitted rich_lib.
  assert (Hin : In _ (submitted (fst (Sign rich_lib sample_signer 0 []))))
    by (vm_compute; left; reflexivity).
  split; [exact Hin|].
  exact (submitted_subject rich_lib sample_signer 0 [] sample_client rich_csr rich_policy _
           Hin eq_refl eq_refl eq_refl).
Defined.

(** X2: the SANs of the request [Sign] submits: the CSR's DNS names,
    followed by the subject's common name when it is set, if the DNS
    field is not static and the CSR has fewer names than its positive
    maximum, and none otherwise; the CSR's IP addresses under the same
    rule for the IP field, and none otherwise. *)
Theorem submitted_sans (L : Lib) (o : hvcaSigner) (now : Z) (csrBytes : bytes)
    (clnt : Client) (csr : CertificateRequest) (vp : Policy) (req : Request) :
  In req (submitted (fst (Sign L o now csrBytes))) ->
  NewClient L (config o) = LOk clnt ->
  parseCSR L csrBytes = LOk csr ->
  Client_Policy L clnt = LOk vp ->
  let pd := SAN_DNSNames vp in
  let pi := SAN_IPAddresses vp in
  let cn := dn_CommonName (req_Subject req) in
  san_DNSNames (req_SAN req)
    = (if negb (Static pd) && (0 <? MaxCount pd)
          && (Z.of_nat (length (csr_DNSNames csr)) <? MaxCount pd)
       then csr_DNSNames csr ++ (if String.eqb cn "" then [] else [cn])
       else [])
  /\ san_IPAddresses (req_SAN req)
    = (if negb (Static pi) && (0 <? MaxCount pi)
          && (Z.of_nat (length (csr_IPAddresses csr)) <? MaxCount pi)
       then csr_IPAddresses csr else []).
Proof.
  intros Hin Hc Hp Hv pd pi cn.
  destruct (submitted_request_fields L o now csrBytes clnt csr vp req Hin Hc Hp Hv)
    as (_ & _ & Dn & Ip & _). split; assumption.
Qed.

Lemma submitted_sans_witness :
  exists req, In req (submitted (fst (Sign rich_lib sample_signer 0 [])))
    /\ san_DNSNames (req_SAN req) = ["www.example.com"; "example.com"]%string
    /\ san_IPAddresses (req_SAN req) = [[x0a; x00; x00; x01]].
Proof.
  only_submitted rich_lib.
  assert (Hin : In _ (submitted (fst (Sign rich_lib sample_signer 0 []))))
    by (vm_compute; left; reflexivity).
  split; [exact Hin|].
  exact (submitted_sans rich_lib sample_signer 0 [] sample_client rich_csr rich_policy _
           Hin eq_refl eq_refl eq_refl).
Defined.

(** X3: the request [Sign] submits carries the parsed CSR unchanged, a
    validity from the time of the call to the Unix epoch, and as hash
    algorithm the first one the policy lists when it requires one
    (presence 2), none otherwise. *)
Theorem submitted_csr_validity_hash (L : Lib) (o : hvcaSigner) (now : Z) (csrBytes : bytes)
    (clnt : Client) (csr : CertificateRequest) (vp : Policy) (req : Request) :
  In req (submitted (fst (Sign L o now csrBytes))) ->
  NewClient L (config o) = LOk clnt ->
  parseCSR L csrBytes = LOk csr ->
  Client_Policy L clnt = LOk vp ->
  req_CSR req = csr
  /\ req_Validity req = {| NotBefore := now; NotAfter := 0 |}
  /\ HashAlgorithm (req_Signature req)
    = (if Z.eqb (HashAlgorithm_Presence vp) 2 then hd "" (HashAlgorithm_List vp) else "").
Proof.
  intros Hin Hc Hp Hv.
  destruct (submitted_request_fields L o now csrBytes clnt csr vp req Hin Hc Hp Hv)
    as (_ & _ & _ & _ & Cs & Va & Hg). repeat split; assumption.
Qed.

Lemma submitted_csr_validity_hash_witness :
  exists req, In req (submitted (fst (Sign rich_lib sample_signer 0 [])))
    /\ req_CSR req = rich_csr
    /\ HashAlgorithm (req_Signature req) = "SHA384"%string.
Proof.
  only_submitted rich_lib.
  assert (Hin : In _ (submitted (fst (Sign rich_lib sample_signer 0 []))))
    by (vm_compute; left; reflexivity).
  split; [exact Hin|].
  destruct (submitted_csr_validity_hash rich_lib sample_signer 0 [] sample_client rich_csr
              rich_policy _ Hin eq_refl eq_refl eq_refl) as (Cs & _ & Hg).
  split; [exact Cs | exact Hg].
Defined.

(** X4: [Sign] makes its remote calls in the order client creation, policy
    fetch, certificate request, certificate retrieval, trust-chain
    retrieval, each at most once: its calls are always a prefix of that
    order. *)
Theorem Sign_call_order (L : Lib) (o : hvcaSigner) (now : Z) (csrBytes : bytes) :
  exists k, map ev_kind (fst (Sign L o now csrBytes)) = firstn k call_order.
Proof.
  destruct (Sign L o now csrBytes) as [tr r] eqn:H. cbn [fst].
  run_sign H; injection H as <- _;
    first [exists 0%nat; reflexivity | exists 1%nat; reflexivity
          | exists 2%nat; reflexivity | exists 3%nat; reflexivity
          | exists 4%nat; reflexivity | exists 5%nat; reflexivity].
Qed.

(** X5: the certificate [Sign] retrieves is the one for the serial number
    the CA returned to the request it submitted, on the same client. *)
Theorem Sign_retrieves_submitted_serial (L : Lib) (o : hvcaSigner) (now : Z)
    (csrBytes : bytes) (serial : Z) (ok : bool) :
  In (ev_CertificateRetrieve serial ok) (fst (Sign L o now csrBytes)) ->
  exists clnt req,
    NewClient L (config o) = LOk clnt
    /\ In (ev_CertificateRequest req true) (fst (Sign L o now csrBytes))
    /\ Client_CertificateRequest L clnt req = LOk serial
    /\ ok = is_ok (from_lib (Client_CertificateRetrieve L clnt serial)).
Proof.
  destruct (Sign L o now csrBytes) as [tr r] eqn:H. cbn [fst]. intros Hin.
  run_sign H; injection H as <- _; cbn in Hin;
    repeat match goal with
    | H : _ \/ _ |- _ => destruct H as [H|H]
    | H : False |- _ => destruct H
    | H : ev_CertificateRetrieve _ _ = ev_CertificateRetrieve _ _ |- _ =>
        injection H as <- <-
    | H : _ = _ |- _ => discriminate H
    end.
  all: do 2 eexists; split; [reflexivity|]; split; [cbn; tauto|].
  all: split; [eassumption|].
  all: match goal with E : Client_CertificateRetrieve _ _ _ = _ |- _ => rewrite E end;
    reflexivity.
Qed.

Lemma Sign_retrieves_submitted_serial_witness :
  exists clnt req,
    NewClient chain_lib (config sample_signer) = LOk clnt
    /\ In (ev_CertificateRequest req true) (fst (Sign chain_lib sample_signer 0 []))
    /\ Client_CertificateRequest chain_lib clnt req = LOk 42
    /\ true = is_ok (from_lib (Client_CertificateRetrieve chain_lib clnt 42)).
Proof.
  apply (Sign_retrieves_submitted_serial chain_lib sample_signer 0 [] 42 true).
  vm_compute. tauto.
Defined.

(** X6: a failure of client creation, of the CSR parse or of the policy
    fetch is returned as is, with nil outputs: the CSR is parsed only
    once the client is created, and the policy fetched only once the CSR
    is parsed. *)
Theorem Sign_early_failures (L : Lib) (o : hvcaSigner) (now : Z) (csrBytes : bytes)
    (m : string) :
  (NewClient L (config o) = LErr m ->
   Sign L o now csrBytes = ([ev_NewClient false], Returned (None, None, Some (lib_error m))))
  /\ (forall clnt, NewClient L (config o) = LOk clnt ->
      parseCSR L csrBytes = LErr m ->
      Sign L o now csrBytes = ([ev_NewClient true], Returned (None, None, Some (lib_error m))))
  /\ (forall clnt csr, NewClient L (config o) = LOk clnt ->
      parseCSR L csrBytes = LOk csr ->
      Client_Policy L clnt = LErr m ->
      Sign L o now csrBytes
      = ([ev_NewClient true; ev_Policy false], Returned (None, None, Some (lib_error m)))).
Proof.
  unfold Sign, Sign_body. unfold_monad. split; [|split].
  - intros Hc. rewrite Hc. reflexivity.
  - intros clnt Hc Hp. rewrite Hc. cbn. rewrite Hp. reflexivity.
  - intros clnt csr Hc Hp Hv. rewrite Hc. cbn. rewrite Hp. cbn. rewrite Hv. reflexivity.
Qed.

Lemma Sign_early_failures_witness :
  Sign (sample_lib sample_policy (sample_csr "example.com" []) [x05] [])
    {| config := None |} 0 []
  = ([ev_NewClient false], Returned (None, None, Some (lib_error "no configuration"))).
Proof.
  apply (proj1 (Sign_early_failures
                  (sample_lib sample_policy (sample_csr "example.com" []) [x05] [])
                  {| config := None |} 0 [] "no configuration")).
  reflexivity.
Defined.

(** X7: once the request passes every check, a failure of the
    submission, of the certificate retrieval or of the trust-chain
    retrieval is returned as is, with nil outputs, and no further remote
    call is made. *)
Theorem Sign_remote_failures (L : Lib) (o : hvcaSigner) (now : Z) (csrBytes : bytes)
    (clnt : Client) (csr : CertificateRequest) (vp : Policy) (r1 r2 req : Request)
    (m : string) :
  NewClient L (config o) = LOk clnt ->
  parseCSR L csrBytes = LOk csr ->
  Client_Policy L clnt = LOk vp ->
  subject_common_name vp csr (init_request csr now) = Ok r1 ->
  subject_serial_number vp csr r1 = Ok r2 ->
  check_san_counts vp
    (populate_ip_addresses vp csr (populate_dns_names vp csr r2)) = Ok tt ->
  check_key_type vp csr = Ok tt ->
  check_key_format vp = Ok tt ->
  select_hash vp (populate_ip_addresses vp csr (populate_dns_names vp csr r2))
    = Returned req ->
  (Client_CertificateRequest L clnt req = LErr m ->
   Sign L o now csrBytes
   = ([ev_NewClient true; ev_Policy true; ev_CertificateRequest req false],
      Returned (None, None, Some (lib_error m))))
  /\ (forall serial, Client_CertificateRequest L clnt req = LOk serial ->
      Client_CertificateRetrieve L clnt serial = LErr m ->
      Sign L o now csrBytes
      = ([ev_NewClient true; ev_Policy true; ev_CertificateRequest req true;
          ev_CertificateRetrieve serial false],
         Returned (None, None, Some (lib_error m))))
  /\ (forall serial info, Client_CertificateRequest L clnt req = LOk serial ->
      Client_CertificateRetrieve L clnt serial = LOk info ->
      Client_TrustChain L clnt = LErr m ->
      Sign L o now csrBytes
      = ([ev_NewClient true; ev_Policy true; ev_CertificateRequest req true;
          ev_CertificateRetrieve serial true; ev_TrustChain false],
         Returned (None, None, Some (lib_error m)))).
Proof.
  intros Hc Hp Hv H1 H2 Hs Hk Hf Hh.
  unfold Sign, Sign_body. unfold_monad. rewrite Hc. cbn. rewrite Hp. cbn.
  rewrite Hv. cbn. rewrite H1. cbn. rewrite H2. cbn. rewrite Hs. cbn.
  rewrite Hk. cbn. rewrite Hf. cbn. rewrite Hh. cbn.
  split; [|split].
  - intros E. rewrite E. reflexivity.
  - intros serial E1 E2. rewrite E1. cbn. rewrite E2. reflexivity.
  - intros serial info E1 E2 E3. rewrite E1. cbn. rewrite E2. cbn. rewrite E3. reflexivity.
Qed.

Ltac ok_of t :=
  let v := eval vm_compute in t in
  match v with Ok ?r => exact r | Returned ?r => exact r end.

Lemma Sign_remote_failures_witness :
  exists req, Sign refusing_lib sample_signer 0 []
    = ([ev_NewClient true; ev_Policy true; ev_CertificateRequest req false],
       Returned (None, None, Some (lib_error "request refused"))).
Proof.
  pose (csr := sample_csr "example.com" []).
  pose (r1 := ltac:(ok_of (subject_common_name sample_policy csr (init_request csr 0)))).
  pose (r2 := ltac:(ok_of (subject_serial_number sample_policy csr r1))).
  pose (req := ltac:(ok_of (select_hash sample_policy
                 (populate_ip_addresses sample_policy csr (populate_dns_names sample_policy csr r2))))).
  exists req.
  apply (proj1 (Sign_remote_failures refusing_lib sample_signer 0 [] sample_client csr
                  sample_policy r1 r2 req "request refused" eq_refl eq_refl eq_refl
                  ltac:(vm_compute; reflexivity) ltac:(vm_compute; reflexivity)
                  ltac:(vm_compute; reflexivity) ltac:(vm_compute; reflexivity)
                  ltac:(vm_compute; reflexivity) ltac:(vm_compute; reflexivity))).
  reflexivity.
Defined.

Lemma EncodeToMemory_cons (b : Pem.Block) : exists x t, Pem.EncodeToMemory b = x :: t.
Proof. eexists _, _. reflexivity. Qed.

Lemma encode_chain_None (certs : list Certificate) : encode_chain certs = None <-> certs = [].
Proof.
  unfold encode_chain.
  assert (G : forall acc, fold_left (fun caChain c =>
              go_append caChain (Pem.EncodeToMemory (cert_block c))) certs acc = None ->
              acc = None /\ certs = []).
  { induction certs as [|c certs IH]; intros acc H; [split; [exact H|reflexivity]|].
    cbn [fold_left] in H. apply IH in H as [H _].
    destruct (EncodeToMemory_cons (cert_block c)) as (x & t & E).
    rewrite E in H. destruct acc; discriminate H. }
  split; [intros H; exact (proj2 (G None H))|intros ->; reflexivity].
Qed.

(** X8: when [Sign] succeeds it has made all five remote calls, each
    successfully, its leaf output is not nil, and its chain output is nil
    exactly when the CA returned an empty trust chain. *)
Theorem Sign_success_outputs (L : Lib) (o : hvcaSigner) (now : Z) (csrBytes : bytes)
    (tr : list event) (leaf chain : option bytes) :
  Sign L o now csrBytes = (tr, Returned (leaf, chain, None)) ->
  exists clnt certs,
    NewClient L (config o) = LOk clnt
    /\ Client_TrustChain L clnt = LOk certs
    /\ leaf <> None
    /\ (chain = None <-> certs = [])
    /\ map ev_kind tr = call_order
    /\ forallb ev_ok tr = true.
Proof.
  intros H. run_sign H; try discriminate H.
  injection H as <- <- <-.
  do 2 eexists. split; [reflexivity|]. split; [eassumption|].
  split; [discriminate|]. split; [apply encode_chain_None|]. split; reflexivity.
Qed.

Lemma Sign_success_outputs_witness :
  exists tr leaf,
    Sign (sample_lib sample_policy (sample_csr "example.com" []) [x05] [])
      sample_signer 0 [] = (tr, Returned (leaf, None, None))
    /\ leaf <> None /\ map ev_kind tr = call_order.
Proof.
  let v := eval vm_compute in (Sign (sample_lib sample_policy (sample_csr "example.com" [])
                                 [x05] []) sample_signer 0 []) in
  match v with (?tr, Returned (?leaf, None, None)) => exists tr, leaf end.
  assert (E : Sign (sample_lib sample_policy (sample_csr "example.com" []) [x05] [])
                sample_signer 0 [] = (_, Returned (_, None, None)))
    by (vm_compute; reflexivity).
  split; [exact E|].
  destruct (Sign_success_outputs _ _ _ _ _ _ _ E) as (clnt & certs & _ & _ & Hl & _ & Ho & _).
  split; [exact Hl | exact Ho].
Defined.

(** X9: when the common-name check passes and the fetched policy
    requires the subject serial number but the CSR has none, [Sign]
    returns nil, nil and a validation error naming the serial number,
    after the client creation and the policy fetch only. *)
Theorem sn_required_missing (L : Lib) (o : hvcaSigner) (now : Z) (csrBytes : bytes)
    (clnt : Client) (csr : CertificateRequest) (vp : Policy) :
  NewClient L (config o) = LOk clnt ->
  parseCSR L csrBytes = LOk csr ->
  Client_Policy L clnt = LOk vp ->
  SubjectDN_CommonName_Presence vp <> Required \/ CommonName (csr_Subject csr) <> ""%string ->
  SubjectDN_SerialNumber_Presence vp = Required ->
  SerialNumber (csr_Subject csr) = ""%string ->
  Sign L o now csrBytes
    = ([ev_NewClient true; ev_Policy true], Returned (None, None, Some err_sn_required))
  /\ exists m, err_sn_required = errors_New m /\ contains "subject serial number" m.
Proof.
  intros Hc Hp Hv Hcn Hsp Hsn.
  assert (C : exists r1, subject_common_name vp csr (init_request csr now) = Ok r1).
  { unfold subject_common_name.
    destruct (Z.eqb (SubjectDN_CommonName_Presence vp) Required) eqn:E;
      [apply Z.eqb_eq in E; destruct Hcn as [Hcn|Hcn]; [contradiction|];
       apply String.eqb_neq in Hcn; rewrite Hcn|]; eexists; reflexivity. }
  destruct C as [r1 H1].
  split.
  - unfold Sign, Sign_body. unfold_monad. rewrite Hc. cbn. rewrite Hp. cbn.
    rewrite Hv. cbn. rewrite H1. cbn. unfold subject_serial_number.
    rewrite Hsp, Hsn, Z.eqb_refl. reflexivity.
  - eexists. split; [reflexivity|].
    exists "atlas validation policy requires "%string,
           ", but CSR did not contain one"%string.
    reflexivity.
Qed.

Lemma sn_required_missing_witness :
  Sign (sample_lib sn_policy (sample_csr "example.com" []) [x05] []) sample_signer 0 []
  = ([ev_NewClient true; ev_Policy true], Returned (None, None, Some err_sn_required)).
Proof.
  apply (sn_required_missing (sample_lib sn_policy (sample_csr "example.com" []) [x05] [])
           sample_signer 0 [] sample_client (sample_csr "example.com" []) sn_policy
           eq_refl eq_refl eq_refl ltac:(right; discriminate) eq_refl eq_refl).
Defined.

(** X10: when the checks before it pass and the account's key format is
    not PKCS#10, [Sign] returns nil, nil and the key-format error after
    the client creation and the policy fetch only: nothing is submitted. *)
Theorem key_format_rejected (L : Lib) (o : hvcaSigner) (now : Z) (csrBytes : bytes)
    (clnt : Client) (csr : CertificateRequest) (vp : Policy) (r1 r2 : Request) :
  NewClient L (config o) = LOk clnt ->
  parseCSR L csrBytes = LOk csr ->
  Client_Policy L clnt = LOk vp ->
  subject_common_name vp csr (init_request csr now) = Ok r1 ->
  subject_serial_number vp csr r1 = Ok r2 ->
  check_san_counts vp
    (populate_ip_addresses vp csr (populate_dns_names vp csr r2)) = Ok tt ->
  check_key_type vp csr = Ok tt ->
  PublicKey_KeyFormat vp <> PKCS10 ->
  Sign L o now csrBytes
  = ([ev_NewClient true; ev_Policy true], Returned (None, None, Some err_key_format)).
Proof.
  intros Hc Hp Hv H1 H2 Hs Hk Hf.
  unfold Sign, Sign_body. unfold_monad. rewrite Hc. cbn. rewrite Hp. cbn.
  rewrite Hv. cbn. rewrite H1. cbn. rewrite H2. cbn. rewrite Hs. cbn.
  rewrite Hk. cbn. unfold check_key_format.
  destruct (PublicKey_KeyFormat vp); [reflexivity|contradiction|reflexivity].
Qed.

Lemma key_format_rejected_witness :
  Sign (sample_lib pkcs8_policy (sample_csr "example.com" []) [x05] []) sample_signer 0 []
  = ([ev_NewClient true; ev_Policy true], Returned (None, None, Some err_key_format)).
Proof.
  pose (csr := sample_csr "example.com" []).
  pose (r1 := ltac:(ok_of (subject_common_name pkcs8_policy csr (init_request csr 0)))).
  pose (r2 := ltac:(ok_of (subject_serial_number pkcs8_policy csr r1))).
  apply (key_format_rejected (sample_lib pkcs8_policy csr [x05] []) sample_signer 0 []
           sample_client csr pkcs8_policy r1 r2 eq_refl eq_refl eq_refl
           ltac:(vm_compute; reflexivity) ltac:(vm_compute; reflexivity)
           ltac:(vm_compute; reflexivity) ltac:(vm_compute; reflexivity)).
  discriminate.
Defined.

(** X11: when the subject checks pass, a SAN field whose CSR entries are
    not copied (the field is static, its maximum is not positive, or the
    CSR has at least the maximum number of entries) but whose minimum is
    positive makes [Sign] fail with the missing-SANs error; this holds for
    DNS names and for IP addresses alike. *)
Theorem uncopied_sans_rejected (L : Lib) (o : hvcaSigner) (now : Z) (csrBytes : bytes)
    (clnt : Client) (csr : CertificateRequest) (vp : Policy) (r1 r2 : Request) :
  NewClient L (config o) = LOk clnt ->
  parseCSR L csrBytes = LOk csr ->
  Client_Policy L clnt = LOk vp ->
  subject_common_name vp csr (init_request csr now) = Ok r1 ->
  subject_serial_number vp csr r1 = Ok r2 ->
  let pd := SAN_DNSNames vp in
  let pi := SAN_IPAddresses vp in
  ((Static pd = true \/ MaxCount pd <= 0
    \/ MaxCount pd <= Z.of_nat (length (csr_DNSNames csr))) ->
   0 < MinCount pd ->
   snd (Sign L o now csrBytes) = Returned (None, None, Some err_sans_missing))
  /\ ((Static pi = true \/ MaxCount pi <= 0
       \/ MaxCount pi <= Z.of_nat (length (csr_IPAddresses csr))) ->
      0 < MinCount pi ->
      snd (Sign L o now csrBytes) = Returned (None, None, Some err_sans_missing)).
Proof.
  intros Hc Hp Hv H1 H2 pd pi. subst pd pi.
  destruct (subject_stages _ _ _ _ _ H1 H2) as (_ & _ & Cs & _ & _ & Sa).
  assert (D0 : san_DNSNames (req_SAN r2) = []) by (rewrite Sa; reflexivity).
  destruct (populate_dns_names_closed vp csr r2 Cs D0) as (Dd & Di & _).
  destruct (populate_ip_addresses_closed vp csr (populate_dns_names vp csr r2))
    as (Ii & Id & _).
  split; intros Hno Hmin; apply Sign_sans_missing;
    exists clnt, csr, vp, r1, r2; (split; [exact Hc|]); (split; [exact Hp|]);
    (split; [exact Hv|]); (split; [exact H1|]); (split; [exact H2|]);
    unfold sans_missing; apply orb_true_iff.
  - left. rewrite Id, Dd.
    replace (negb (Static (SAN_DNSNames vp)) && (0 <? MaxCount (SAN_DNSNames vp))
             && (Z.of_nat (length (csr_DNSNames csr)) <? MaxCount (SAN_DNSNames vp)))
      with false; [apply Z.ltb_lt; cbn; exact Hmin|].
    destruct Hno as [Hno|[Hno|Hno]];
      [rewrite Hno; reflexivity
      |rewrite (proj2 (Z.ltb_ge _ _) Hno), andb_false_r; reflexivity
      |rewrite (proj2 (Z.ltb_ge _ _) Hno), andb_false_r; reflexivity].
  - right. rewrite Ii, Di, Sa.
    replace (negb (Static (SAN_IPAddresses vp)) && (0 <? MaxCount (SAN_IPAddresses vp))
             && (Z.of_nat (length (csr_IPAddresses csr)) <? MaxCount (SAN_IPAddresses vp)))
      with false; [apply Z.ltb_lt; cbn; exact Hmin|].
    destruct Hno as [Hno|[Hno|Hno]];
      [rewrite Hno; reflexivity
      |rewrite (proj2 (Z.ltb_ge _ _) Hno), andb_false_r; reflexivity
      |rewrite (proj2 (Z.ltb_ge _ _) Hno), andb_false_r; reflexivity].
Qed.

Lemma uncopied_sans_rejected_witness :
  snd (Sign (sample_lib (dns_policy 1 1) dns_csr [x05] []) sample_signer 0 [])
  = Returned (None, None, Some err_sans_missing).
Proof.
  pose (r1 := ltac:(ok_of (subject_common_name (dns_policy 1 1) dns_csr
                             (init_request dns_csr 0)))).
  pose (r2 := ltac:(ok_of (subject_serial_number (dns_policy 1 1) dns_csr r1))).
  apply (proj1 (uncopied_sans_rejected (sample_lib (dns_policy 1 1) dns_csr [x05] [])
           sample_signer 0 [] sample_client dns_csr (dns_policy 1 1) r1 r2
           eq_refl eq_refl eq_refl ltac:(vm_compute; reflexivity)
           ltac:(vm_compute; reflexivity)));
    [right; right; vm_compute; discriminate | vm_compute; reflexivity].
Defined.

(** X12: whenever [HVCASignerFromIssuerAndSecretData] returns, exactly
    one of the signer and the error is nil; and once both the certificate
    bytes and the key bytes hold a PEM block it always returns: no panic. *)
Theorem constructor_result_shape (L : Lib) (spec : IssuerSpec)
    (secret : gmap string bytes) :
  (forall s e, HVCASignerFromIssuerAndSecretData L spec secret = Returned (s, e) ->
   (s = None <-> e <> None))
  /\ (pem_block (secret_get secret "cert") <> None ->
      pem_block (secret_get secret "certkey") <> None ->
      exists r, HVCASignerFromIssuerAndSecretData L spec secret = Returned r).
Proof.
  unfold HVCASignerFromIssuerAndSecretData, finish_config. cbv zeta. split.
  - intros s e H. split_matches; try discriminate H; injection H as <- <-;
      split; intros; congruence.
  - intros Hc Hk.
    destruct (pem_block (secret_get secret "cert")); [|contradiction].
    destruct (pem_block (secret_get secret "certkey")); [|contradiction].
    split_matches; eexists; reflexivity.
Qed.

Lemma constructor_result_shape_witness :
  exists r, HVCASignerFromIssuerAndSecretData (sample_lib sample_policy dns_csr [] [])
              sample_spec (sample_secret (crlf cert_pem) (key_pem "RSA PRIVATE KEY"))
            = Returned r.
Proof.
  apply (proj2 (constructor_result_shape (sample_lib sample_policy dns_csr [] [])
                  sample_spec (sample_secret (crlf cert_pem) (key_pem "RSA PRIVATE KEY"))));
    vm_compute; discriminate.
Defined.

(** X13: when [HVCASignerFromIssuerAndSecretData] returns a signer, its
    configuration holds the secret's API key and secret as strings (empty
    when the key is missing), the issuer's URL, the parsed certificate and
    the key parsed by the parser its block type selects, and it is the
    configuration [Validate] accepted. *)
Theorem constructor_success (L : Lib) (spec : IssuerSpec) (secret : gmap string bytes)
    (s : hvcaSigner) (e : option error) :
  HVCASignerFromIssuerAndSecretData L spec secret = Returned (Some s, e) ->
  e = None
  /\ exists cb c kb k,
    pem_block (secret_get secret "cert") = Some cb
    /\ ParseCertificate L (Pem.blk_Bytes cb) = LOk c
    /\ pem_block (secret_get secret "certkey") = Some kb
    /\ ((Pem.blk_Type kb = "RSA PRIVATE KEY"%string
         /\ ParsePKCS1PrivateKey L (Pem.blk_Bytes kb) = LOk k)
        \/ (Pem.blk_Type kb = "PRIVATE KEY"%string
            /\ ParsePKCS8PrivateKey L (Pem.blk_Bytes kb) = LOk k))
    /\ let cfg := {| APIKey := string_of_list_byte (secret_get secret "apikey");
                     APISecret := string_of_list_byte (secret_get secret "apisecret");
                     URL := spec_URL spec; TLSCert := Some c; TLSKey := Some k |} in
       Config_Validate L cfg = None /\ config s = Some cfg.
Proof.
  unfold HVCASignerFromIssuerAndSecretData, finish_config, with_key. cbv zeta.
  intros H.
  destruct (pem_block (secret_get secret "cert")) as [cb|] eqn:Ec; [|discriminate H].
  destruct (ParseCertificate L (Pem.blk_Bytes cb)) as [c|m] eqn:Epc; [|discriminate H].
  destruct (pem_block (secret_get secret "certkey")) as [kb|] eqn:Ek; [|discriminate H].
  cbn [TLSCert APIKey APISecret URL] in H.
  destruct (String.eqb (Pem.blk_Type kb) "RSA PRIVATE KEY") eqn:E1;
    [|destruct (String.eqb (Pem.blk_Type kb) "PRIVATE KEY") eqn:E2; [|discriminate H]].
  - destruct (ParsePKCS1PrivateKey L (Pem.blk_Bytes kb)) as [k|m] eqn:Ep; [|discriminate H].
    destruct (Config_Validate L _) eqn:Ev in H; [discriminate H|].
    injection H as <- <-. split; [reflexivity|].
    exists cb, c, kb, k. repeat split; try assumption.
    left. split; [apply String.eqb_eq; exact E1 | exact Ep].
  - destruct (ParsePKCS8PrivateKey L (Pem.blk_Bytes kb)) as [k|m] eqn:Ep; [|discriminate H].
    destruct (Config_Validate L _) eqn:Ev in H; [discriminate H|].
    injection H as <- <-. split; [reflexivity|].
    exists cb, c, kb, k. repeat split; try assumption.
    right. split; [apply String.eqb_eq; exact E2 | exact Ep].
Qed.

Lemma constructor_success_witness :
  exists s, HVCASignerFromIssuerAndSecretData (sample_lib sample_policy dns_csr [] [])
              sample_spec (sample_secret cert_pem (crlf (key_pem "PRIVATE KEY")))
            = Returned (Some s, None)
    /\ option_map (fun c => option_map key_parser (TLSKey c)) (config s) = Some (Some PKCS8).
Proof.
  let v := eval vm_compute in (HVCASignerFromIssuerAndSecretData
             (sample_lib sample_policy dns_csr [] []) sample_spec
             (sample_secret cert_pem (crlf (key_pem "PRIVATE KEY")))) in
  match v with Returned (Some ?s, None) => exists s end.
  assert (E : HVCASignerFromIssuerAndSecretData (sample_lib sample_policy dns_csr [] [])
                sample_spec (sample_secret cert_pem (crlf (key_pem "PRIVATE KEY")))
              = Returned (Some _, None)) by (vm_compute; reflexivity).
  split; [exact E|].
  destruct (constructor_success _ _ _ _ _ E) as (_ & cb & c & kb & k & _ & _ & Hk & Hp & _ & Hs).
  rewrite Hs. cbn. vm_compute in Hk. injection Hk as <-.
  destruct Hp as [[Ht _]|[_ Hp]]; [discriminate Ht|]. vm_compute in Hp.
  injection Hp as <-. reflexivity.
Defined.

(** X14: a subject field the fetched policy marks required is never
    empty in a request [Sign] submits. *)
Theorem submitted_required_fields_set (L : Lib) (o : hvcaSigner) (now : Z)
    (csrBytes : bytes) (clnt : Client) (vp : Policy) (req : Request) :
  In req (submitted (fst (Sign L o now csrBytes))) ->
  NewClient L (config o) = LOk clnt ->
  Client_Policy L clnt = LOk vp ->
  (SubjectDN_CommonName_Presence vp = Required -> dn_CommonName (req_Subject req) <> ""%string)
  /\ (SubjectDN_SerialNumber_Presence vp = Required ->
      dn_SerialNumber (req_Subject req) <> ""%string).
Proof.
  intros Hin Hc Hv.
  destruct (submitted_request _ _ _ _ _ Hin)
    as (clnt' & csr & vp' & r1 & r2 & Hc' & Hp & Hv' & H1 & H2 & Hh).
  rewrite Hc in Hc'. injection Hc' as <-. rewrite Hv in Hv'. injection Hv' as <-.
  destruct (submitted_request_fields L o now csrBytes clnt csr vp req Hin Hc Hp Hv)
    as (Cn & Sn & _).
  unfold copies_field in Cn, Sn. split; intros Hr.
  - rewrite Cn, Hr. cbn. unfold subject_common_name in H1. rewrite Hr, Z.eqb_refl in H1.
    destruct (String.eqb (CommonName (csr_Subject csr)) "") eqn:E; [discriminate H1|].
    apply String.eqb_neq. exact E.
  - rewrite Sn, Hr. cbn. unfold subject_serial_number in H2. rewrite Hr, Z.eqb_refl in H2.
    destruct (String.eqb (SerialNumber (csr_Subject csr)) "") eqn:E; [discriminate H2|].
    apply String.eqb_neq. exact E.
Qed.

Lemma submitted_required_fields_set_witness :
  exists req, In req (submitted (fst (Sign chain_lib sample_signer 0 [])))
    /\ dn_CommonName (req_Subject req) <> ""%string.
Proof.
  only_submitted chain_lib.
  assert (Hin : In _ (submitted (fst (Sign chain_lib sample_signer 0 []))))
    by (vm_compute; left; reflexivity).
  split; [exact Hin|].
  exact (proj1 (submitted_required_fields_set chain_lib sample_signer 0 [] sample_client
                  sample_policy _ Hin eq_refl eq_refl) eq_refl).
Defined.

(** X15: a request [Sign] submits never carries more DNS-name SANs than
    the policy's maximum, and carries fewer IP-address SANs than the
    policy's maximum, unless it carries none. *)
Theorem submitted_san_bounds (L : Lib) (o : hvcaSigner) (now : Z) (csrBytes : bytes)
    (clnt : Client) (vp : Policy) (req : Request) :
  In req (submitted (fst (Sign L o now csrBytes))) ->
  NewClient L (config o) = LOk clnt ->
  Client_Policy L clnt = LOk vp ->
  (san_DNSNames (req_SAN req) = []
   \/ Z.of_nat (length (san_DNSNames (req_SAN req))) <= MaxCount (SAN_DNSNames vp))
  /\ (san_IPAddresses (req_SAN req) = []
      \/ Z.of_nat (length (san_IPAddresses (req_SAN req))) < MaxCount (SAN_IPAddresses vp)).
Proof.
  intros Hin Hc Hv.
  destruct (submitted_request _ _ _ _ _ Hin)
    as (clnt' & csr & vp' & r1 & r2 & Hc' & Hp & Hv' & H1 & H2 & Hh).
  rewrite Hc in Hc'. injection Hc' as <-. rewrite Hv in Hv'. injection Hv' as <-.
  destruct (submitted_request_fields L o now csrBytes clnt csr vp req Hin Hc Hp Hv)
    as (_ & _ & Dn & Ip & _).
  rewrite Dn, Ip. split.
  - destruct (negb (Static (SAN_DNSNames vp)) && (0 <? MaxCount (SAN_DNSNames vp))
              && (Z.of_nat (length (csr_DNSNames csr)) <? MaxCount (SAN_DNSNames vp))) eqn:E;
      [right|left; reflexivity].
    apply andb_true_iff in E as [_ E]. apply Z.ltb_lt in E.
    rewrite length_app.
    destruct (String.eqb _ ""); cbn [length]; lia.
  - destruct (negb (Static (SAN_IPAddresses vp)) && (0 <? MaxCount (SAN_IPAddresses vp))
              && (Z.of_nat (length (csr_IPAddresses csr)) <? MaxCount (SAN_IPAddresses vp))) eqn:E;
      [right|left; reflexivity].
    apply andb_true_iff in E as [_ E]. apply Z.ltb_lt in E. exact E.
Qed.

Lemma submitted_san_bounds_witness :
  exists req, In req (submitted (fst (Sign rich_lib sample_signer 0 [])))
    /\ Z.of_nat (length (san_DNSNames (req_SAN req))) <= 5.
Proof.
  only_submitted rich_lib.
  assert (Hin : In _ (submitted (fst (Sign rich_lib sample_signer 0 []))))
    by (vm_compute; left; reflexivity).
  split; [exact Hin|].
  destruct (proj1 (submitted_san_bounds rich_lib sample_signer 0 [] sample_client
                     rich_policy _ Hin eq_refl eq_refl)) as [E|E];
    [rewrite E; cbn; lia | exact E].
Defined.

End Extras.
